(** * checker_common: helm / kubectl helpers of the health checkers

    A shallow embedding of [src/checker_common.py].  Pure functions are
    Rocq functions over [string]; the functions that print, read the clock,
    the environment and the file system, or start a subprocess are written
    in a small state-and-exception monad over an explicit [State] of the
    process, with the outside world (clock readings, generated identifiers,
    outcomes of shell commands) supplied by a [Host].

    Python strings are modelled by [string] (a sequence of 8-bit
    characters, the UTF-8 encoding of the text).  Every character that the
    code or the template pattern inspects is ASCII, and no byte of a
    multi-byte UTF-8 sequence is ASCII, so scanning bytes and scanning code
    points find the same placeholders.  Only [int()] looks further: what
    it makes of a text that is not all ASCII is the host's to say. *)

From Stdlib Require Import Ascii QArith.
From stdpp Require Import base strings list gmap pretty.

Local Open Scope Z_scope.

(** ** Strings *)

Module Str.

(** [join l] is [("").join(l)]. *)
Definition join (l : list string) : string := foldr String.app "" l.

(** [contains sub s] is Python's [sub in s]. *)
Fixpoint contains (sub s : string) : bool :=
  String.prefix sub s ||
  match s with
  | "" => false
  | String _ s' => contains sub s'
  end.

(** [drop n s] is [s[n:]]. *)
Fixpoint drop (n : nat) (s : string) : string :=
  match n, s with
  | O, _ => s
  | S _, "" => ""
  | S n', String _ s' => drop n' s'
  end.

End Str.

(** ** Python values that are formatted into text *)

(** The values the module renders with [str()], [%s] or an f-string:
    integers, [None] and strings. *)
Inductive PyVal :=
  | PyInt (z : Z)
  | PyNone
  | PyStr (s : string).

(** The text that [str(v)] gives.  For an integer it is the decimal
    text, which [str()] writes only up to a number of digits: see
    [str_value] further down for [str()] with its exception. *)
Definition py_str (v : PyVal) : string :=
  match v with
  | PyInt z => pretty z
  | PyNone => "None"
  | PyStr s => s
  end.

(** A [str | None] argument as a Python value. *)
Definition of_opt (o : option string) : PyVal :=
  match o with
  | Some s => PyStr s
  | None => PyNone
  end.

(** ** Helm command builder *)

Inductive HelmCommand :=
  | INSTALL
  | UNINSTALL.

(** The text of an enumeration member, [HelmCommand.X.value]. *)
Definition HelmCommand_value (c : HelmCommand) : string :=
  match c with
  | INSTALL => "install"
  | UNINSTALL => "uninstall"
  end.

(** A [dict[str, str]]: its items in insertion order.  [values.items()]
    iterates this list front to back. *)
Abbreviation StrDict := (list (string * string)).

(** [generate_helm_command], lines 87-114.  Each assignment
    [command = f"{command} ..."] is one [let]; the loop over
    [values.items()] is a left fold. *)
Definition generate_helm_command
    (helm_path release_name : string)
    (chart : option string)
    (values : option StrDict)
    (chart_version helm_install_flags : option string)
    (helm_command_type : HelmCommand) : string :=
  let command := helm_path in
  match helm_command_type with
  | UNINSTALL => command +:+ " uninstall " +:+ release_name
  | INSTALL =>
      let command :=
        command +:+ " install " +:+ release_name +:+ " " +:+ py_str (of_opt chart) in
      let command :=
        match chart_version with
        | Some v => command +:+ " --version " +:+ v
        | None => command
        end in
      let command :=
        match values with
        | Some d =>
            fold_left (λ command kv, command +:+ " --set " +:+ kv.1 +:+ "=" +:+ kv.2)
                      d command
        | None => command
        end in
      let command :=
        match helm_install_flags with
        | Some f => command +:+ " " +:+ f
        | None => command
        end in
      command
  end.

(** The fragments of an install command, as the specification words them. *)
Definition version_fragment (chart_version : option string) : string :=
  match chart_version with
  | Some v => " --version " +:+ v
  | None => ""
  end.

Definition set_fragment (kv : string * string) : string :=
  " --set " +:+ kv.1 +:+ "=" +:+ kv.2.

Definition set_fragments (values : option StrDict) : string :=
  match values with
  | Some d => Str.join (set_fragment <$> d)
  | None => ""
  end.

Definition flags_fragment (helm_install_flags : option string) : string :=
  match helm_install_flags with
  | Some f => " " +:+ f
  | None => ""
  end.

(** ** The process state and the outside world *)

(** [subprocess.CompletedProcess] of a command run with
    [text=True, stdout=PIPE, stderr=PIPE]. *)
Record CompletedProcess := {
  args : string;
  returncode : Z;
  stdout : string;
  stderr : string;
}.

(** The exceptions that can leave the functions of this module. *)
Inductive Exn :=
  | CalledProcessError (code : Z) (cmd : string) (output err : string)
  | FileNotFoundError (filename : string)
  | ValueError (literal : string)     (* int() does not take this text *)
  | IntStrLimitError (z : Z)          (* the ValueError of str(z): too many digits *)
  | TypeError.

Inductive Result (A : Type) :=
  | Ok (a : A)
  | Raise (e : Exn).
Arguments Ok {A} a.
Arguments Raise {A} e.

(** What the module can observe or change of its process. *)
Record State := {
  printed : list string;          (* texts given to print(), oldest first *)
  ticks : nat;                    (* readings of the clock taken so far *)
  uuids : nat;                    (* identifiers generated so far *)
  temps : nat;                    (* temporary files created so far *)
  environ : gmap string string;   (* os.environ *)
  files : gmap string string;     (* readable files and their text *)
  calls : list (string * bool);   (* subprocess.run(cmd, check=b) so far, oldest first *)
}.

(** What an exited subprocess leaves behind. *)
Record Outcome := {
  exit_status : Z;
  out_text : string;
  err_text : string;
}.

(** The world outside: a Python float is a dyadic rational and is kept as
    its exact value in [Q]; float subtraction (which rounds) and the
    rendering of a float as text are the host's.  So is [int()] of a text
    that is not all ASCII: which characters are digits or white space
    there is read from the interpreter's Unicode tables.  So is the limit
    on the digits of an integer that is read from or written as text,
    which the interpreter is started with. *)
Record Host := {
  clock : nat → Q;                   (* the n-th value of time.time() *)
  float_sub : Q → Q → Q;
  float_str : Q → string;
  uuid4_str : nat → string;          (* str() of the n-th uuid.uuid4() *)
  temp_name : nat → string;          (* name of the n-th NamedTemporaryFile *)
  shell : State → string → Outcome;  (* running a command in the subshell *)
  int_unicode : string → option Z;   (* int() of a text with a non-ASCII character *)
  max_str_digits : N;                (* sys.get_int_max_str_digits(); 0 is no limit *)
}.

(** [int(x)] of a float: truncation towards zero. *)
Definition int_float (x : Q) : Z := Z.quot (Qnum x) (Z.pos (Qden x)).

(** State and exception monad. *)
Definition M (A : Type) : Type := State → Result A * State.

Definition ret {A} (a : A) : M A := λ st, (Ok a, st).

Definition raise {A} (e : Exn) : M A := λ st, (Raise e, st).

Definition bind {A B} (m : M A) (k : A → M B) : M B :=
  λ st,
    match m st with
    | (Ok a, st') => k a st'
    | (Raise e, st') => (Raise e, st')
    end.

(** A pure computation that may raise. *)
Definition lift {A} (r : Result A) : M A := λ st, (r, st).

Notation "x <- m ;; k" := (bind m (λ x, k))
  (at level 100, m at next level, right associativity).
Notation "m ;; k" := (bind m (λ _, k))
  (at level 100, right associativity).

(** ** [int()] of a text *)

(** Decimal value of an ASCII digit. *)
Definition digit_value (c : ascii) : option Z :=
  let n := N_of_ascii c in
  if ((48 <=? n) && (n <=? 57))%N then Some (Z.of_N n - 48) else None.

(** White space that [int()] skips around an ASCII text: tab, line feed,
    vertical tab, form feed, carriage return and the blank. *)
Definition is_space (c : ascii) : bool :=
  let n := N_of_ascii c in
  (((9 <=? n) && (n <=? 13)) || (n =? 32))%N.

Fixpoint lstrip (s : string) : string :=
  match s with
  | String c s' => if is_space c then lstrip s' else s
  | "" => ""
  end.

Definition strip (s : string) : string :=
  String.rev (lstrip (String.rev (lstrip s))).

(** Digits, single underscores allowed between two of them.  [after_digit]
    says that the character before was a digit. *)
Fixpoint digits_value (acc : Z) (after_digit : bool) (s : string) : option Z :=
  match s with
  | "" => if after_digit then Some acc else None
  | String c s' =>
      match digit_value c with
      | Some d => digits_value (acc * 10 + d) true s'
      | None =>
          if Ascii.eqb c "_" && after_digit then digits_value acc false s' else None
      end
  end.

(** How many ASCII digits a text has. *)
Fixpoint count_digits (s : string) : N :=
  match s with
  | "" => 0%N
  | String c s' =>
      (match digit_value c with Some _ => 1 | None => 0 end + count_digits s')%N
  end.

(** Every character is ASCII. *)
Fixpoint is_ascii_text (s : string) : bool :=
  match s with
  | "" => true
  | String c s' => (N_of_ascii c <? 128)%N && is_ascii_text s'
  end.

(** Conversions between integers and decimal text of up to this many
    digits are never limited. *)
Definition digits_threshold : N := 640.

(** The conversion of an integer with this many digits is refused: the
    count is over the threshold and over the limit, when there is one. *)
Definition over_limit (host : Host) (digits : N) : bool :=
  ((digits_threshold <? digits) && (0 <? max_str_digits host)
   && (max_str_digits host <? digits))%N.

(** [int(text)] in base ten for an ASCII text: surrounding white space,
    one optional sign, then digits, not more of them than the limit
    allows.  [None] stands for the [ValueError]. *)
Definition int_of_ascii_text (host : Host) (text : string) : option Z :=
  let body := strip text in
  if over_limit host (count_digits body) then None
  else
    match body with
    | "" => None
    | String c s =>
        if Ascii.eqb c "-" then Z.opp <$> digits_value 0 false s
        else if Ascii.eqb c "+" then digits_value 0 false s
        else digits_value 0 false body
    end.

(** [int(text)] in base ten. *)
Definition int_of_text (host : Host) (text : string) : option Z :=
  if is_ascii_text text then int_of_ascii_text host text else int_unicode host text.

(** [int(v)]. *)
Definition py_int (host : Host) (v : PyVal) : Result Z :=
  match v with
  | PyInt z => Ok z
  | PyStr s =>
      match int_of_text host s with
      | Some z => Ok z
      | None => Raise (ValueError s)
      end
  | PyNone => Raise TypeError
  end.

(** [str(z)] of an integer: its decimal text, unless that has more digits
    than the limit allows. *)
Definition str_int (host : Host) (z : Z) : Result string :=
  let text := pretty z in
  if over_limit host (count_digits text) then Raise (IntStrLimitError z) else Ok text.

(** [str(v)] as the interpreter evaluates it. *)
Definition str_value (host : Host) (v : PyVal) : Result string :=
  match v with
  | PyInt z => str_int host z
  | PyNone => Ok "None"
  | PyStr s => Ok s
  end.

(** ** [string.Template]

    The class pattern of [string.Template] is the delimiter [$] followed
    by one of four alternatives, tried in this order: a second [$]
    (group escaped), an identifier (group named), an identifier between
    braces (group braced), or nothing (group invalid).  An identifier is
    one character of [_a-z] and then as many of [_a-z0-9] as there are,
    ignoring case, ASCII only. *)

(** [[_a-z]], ignoring case, ASCII only. *)
Definition is_id_start (c : ascii) : bool :=
  let n := N_of_ascii c in
  (((65 <=? n) && (n <=? 90)) || ((97 <=? n) && (n <=? 122)) || (n =? 95))%N.

(** [[_a-z0-9]], ignoring case, ASCII only. *)
Definition is_id_char (c : ascii) : bool :=
  let n := N_of_ascii c in
  is_id_start c || ((48 <=? n) && (n <=? 57))%N.

(** The longest run of [[_a-z0-9]] at the start of [s]. *)
Fixpoint id_chars (s : string) : string :=
  match s with
  | String c s' => if is_id_char c then String c (id_chars s') else ""
  | "" => ""
  end.

(** The greedy match of [ID] at the start of [s], if there is one. *)
Definition identifier (s : string) : option string :=
  match s with
  | String c s' => if is_id_start c then Some (String c (id_chars s')) else None
  | "" => None
  end.

(** A match of the pattern: which alternative matched, with its group. *)
Inductive Match :=
  | Escaped
  | Named (id : string)
  | Braced (id : string)
  | Invalid.

(** [mo.group()]: the text the match covers. *)
Definition group0 (mo : Match) : string :=
  match mo with
  | Escaped => "$$"
  | Named id => "$" +:+ id
  | Braced id => "${" +:+ id +:+ "}"
  | Invalid => "$"
  end.

(** The match that starts at a delimiter, from the text after that
    delimiter; the alternatives are tried in the pattern's order. *)
Definition match_after_delimiter (s : string) : Match :=
  match s with
  | "" => Invalid
  | String c s' =>
      if Ascii.eqb c "$" then Escaped
      else
        match identifier s with
        | Some id => Named id
        | None =>
            if Ascii.eqb c "{"
            then
              match identifier s' with
              | Some id =>
                  match Str.drop (String.length id) s' with
                  | String c' _ => if Ascii.eqb c' "}" then Braced id else Invalid
                  | "" => Invalid
                  end
              | None => Invalid
              end
            else Invalid
        end
  end.

(** The template cut into the characters outside every match and the
    matches, left to right. *)
Inductive Piece :=
  | Text (c : ascii)
  | Found (mo : Match).

(** The text of the template a piece stands for. *)
Definition piece_text (p : Piece) : string :=
  match p with
  | Text c => String c ""
  | Found mo => group0 mo
  end.

(** [pattern.finditer]: matches do not overlap, and the search resumes
    where the last match ended.  [skip] counts the characters still
    covered by the last match. *)
Fixpoint pieces_from (skip : nat) (s : string) : list Piece :=
  match s with
  | "" => []
  | String c s' =>
      match skip with
      | S k => pieces_from k s'
      | O =>
          if Ascii.eqb c "$"
          then
            let mo := match_after_delimiter s' in
            Found mo :: pieces_from (String.length (group0 mo) - 1) s'
          else Text c :: pieces_from 0 s'
      end
  end.

Definition pieces (template : string) : list Piece := pieces_from 0 template.

(** The helper [convert] of [safe_substitute]: [str(mapping[named])], the
    match itself when the name is no key. *)
Definition convert (host : Host) (mapping : gmap string PyVal) (mo : Match)
    : Result string :=
  match mo with
  | Named id | Braced id =>
      match mapping !! id with
      | Some v => str_value host v
      | None => Ok (group0 mo)
      end
  | Escaped => Ok "$"
  | Invalid => Ok (group0 mo)
  end.

Definition substitute_piece (host : Host) (mapping : gmap string PyVal) (p : Piece)
    : Result string :=
  match p with
  | Text c => Ok (String c "")
  | Found mo => convert host mapping mo
  end.

(** What [pattern.sub(convert, ...)] writes for a run of pieces: [convert]
    is called match by match from the left, and the first exception ends
    the substitution. *)
Fixpoint render (host : Host) (mapping : gmap string PyVal) (ps : list Piece)
    : Result string :=
  match ps with
  | [] => Ok ""
  | p :: ps' =>
      match substitute_piece host mapping p with
      | Raise e => Raise e
      | Ok s =>
          match render host mapping ps' with
          | Raise e => Raise e
          | Ok t => Ok (s +:+ t)
          end
      end
  end.

(** [string.Template(template).safe_substitute(mapping)]. *)
Definition safe_substitute (host : Host) (mapping : gmap string PyVal)
    (template : string) : Result string :=
  render host mapping (pieces template).

(** The name a piece asks for, when it is a placeholder. *)
Definition placeholder_name (p : Piece) : option string :=
  match p with
  | Found (Named id) | Found (Braced id) => Some id
  | _ => None
  end.

(** The names [expand_template] gives a value to. *)
Definition recognized_names : list string :=
  ["CHECK_TIME_EPOCH_SEC"; "DRY_RUN"; "ORIG_CHECK_TIME_EPOCH_SEC"; "R_LEVEL";
   "IMAGE_TAG"; "SHORT_GUID"; "ITERATIONS"; "EXPIRY_TIME_EPOCH_SEC"].

(** A zero-argument callable returning a [CompletedProcess]. *)
Abbreviation Cleanup := (M CompletedProcess).

Definition newline : string := String "010"%char "".

Section WithHost.
Variable host : Host.

(** [print(text)]. *)
Definition print (text : string) : M unit :=
  λ st,
    (Ok (),
     {| printed := printed st ++ [text]; ticks := ticks st; uuids := uuids st;
        temps := temps st; environ := environ st; files := files st;
        calls := calls st |}).

(** [time.time()]. *)
Definition time_time : M Q :=
  λ st,
    (Ok (clock host (ticks st)),
     {| printed := printed st; ticks := S (ticks st); uuids := uuids st;
        temps := temps st; environ := environ st; files := files st;
        calls := calls st |}).

(** [str(uuid.uuid4())]. *)
Definition uuid4 : M string :=
  λ st,
    (Ok (uuid4_str host (uuids st)),
     {| printed := printed st; ticks := ticks st; uuids := S (uuids st);
        temps := temps st; environ := environ st; files := files st;
        calls := calls st |}).

(** [os.environ.get(key, default)]. *)
Definition environ_get (key : string) (default : PyVal) : M PyVal :=
  λ st,
    (Ok match environ st !! key with
        | Some v => PyStr v
        | None => default
        end, st).

(** [with open(path, "r") as f: f.read()]. *)
Definition read_file (path : string) : M string :=
  λ st,
    match files st !! path with
    | Some text => (Ok text, st)
    | None => (Raise (FileNotFoundError path), st)
    end.

(** [with tempfile.NamedTemporaryFile(delete=False, mode="w") as f]:
    the new file's name, after [content] was written to it. *)
Definition write_temp_file (content : string) : M string :=
  λ st,
    let file_name := temp_name host (temps st) in
    (Ok file_name,
     {| printed := printed st; ticks := ticks st; uuids := uuids st;
        temps := S (temps st); environ := environ st;
        files := <[file_name := content]> (files st);
        calls := calls st |}).

(** [subprocess.run(command, shell=True, text=True, check=check,
    stdout=PIPE, stderr=PIPE)]: the command runs to its end; with
    [check] a non-zero exit status raises [CalledProcessError] holding the
    status, the command and both captured streams. *)
Definition subprocess_run (command : string) (check : bool) : M CompletedProcess :=
  λ st,
    let o := shell host st command in
    let st' :=
      {| printed := printed st; ticks := ticks st; uuids := uuids st;
         temps := temps st; environ := environ st; files := files st;
         calls := calls st ++ [(command, check)] |} in
    if check && negb (exit_status o =? 0)
    then (Raise (CalledProcessError (exit_status o) command (out_text o) (err_text o)), st')
    else (Ok {| args := command; returncode := exit_status o;
                stdout := out_text o; stderr := err_text o |}, st').

(** [run_command], lines 55-84.  [check] defaults to [False] in the
    signature: a caller that omits it passes [false] here. *)
Definition run_command (command : string) (check : bool) : M CompletedProcess :=
  print ("running: " +:+ command) ;;
  start_time <- time_time ;;
  diag <- subprocess_run command check ;;
  end_time <- time_time ;;
  print ("took: " +:+ float_str host (float_sub host end_time start_time)
         +:+ " seconds" +:+ newline
         +:+ "out: " +:+ stdout diag +:+ ", err: " +:+ stderr diag) ;;
  ret diag.

(** [install_helm_release], lines 142-174.  The returned closure holds
    the uninstall command built here. *)
Definition install_helm_release
    (helm_path release_name : string) (chart : option string)
    (values : option StrDict)
    (chart_version helm_install_flags : option string) : M Cleanup :=
  let helm_install_command :=
    generate_helm_command helm_path release_name chart values
                          chart_version helm_install_flags INSTALL in
  run_command helm_install_command false ;;
  let helm_uninstall_command :=
    generate_helm_command helm_path release_name None None
                          None helm_install_flags UNINSTALL in
  let uninstall_helm_release := run_command helm_uninstall_command false in
  ret uninstall_helm_release.

(** [create_helm_release], lines 117-139. *)
Definition create_helm_release
    (helm_path release_name : string) (chart : option string)
    (values : option StrDict)
    (chart_version helm_install_flags : option string) : M (list Cleanup) :=
  let cleanup_functions := [] in
  f <- install_helm_release helm_path release_name chart values
                            chart_version helm_install_flags ;;
  let cleanup_functions := cleanup_functions ++ [f] in
  ret cleanup_functions.

Definition K_APPLY_FORMAT (kubectl_path yaml_path : string) : string :=
  kubectl_path +:+ " apply -f " +:+ yaml_path.

Definition K_DELETE_FORMAT (kubectl_path yaml_path : string) : string :=
  kubectl_path +:+ " delete -f " +:+ yaml_path.

(** [apply_yaml_file], lines 193-212. *)
Definition apply_yaml_file (yaml_path kubectl_path : string) : M Cleanup :=
  run_command (K_APPLY_FORMAT kubectl_path yaml_path) false ;;
  let delete_yaml_file := run_command (K_DELETE_FORMAT kubectl_path yaml_path) false in
  ret delete_yaml_file.

(** [expand_template], lines 215-231.  The entries of the dictionary are
    evaluated in the order they are written; the default of [SHORT_GUID]
    is computed whether or not the variable is set. *)
Definition expand_template (yaml_template : string) : M string :=
  text <- read_file yaml_template ;;
  let t := text in
  check_time <- time_time ;;
  dry_run <- environ_get "DRY_RUN" PyNone ;;
  orig_check_time <- environ_get "CHECK_TIME_EPOCH_SEC" PyNone ;;
  r_level <- environ_get "R_LEVEL" PyNone ;;
  image_tag <- environ_get "IMAGE_TAG" (PyStr "latest") ;;
  guid <- uuid4 ;;
  short_guid <- environ_get "SHORT_GUID" (PyStr (String.substring 0 4 guid)) ;;
  iterations <- environ_get "ITERATIONS" (PyInt 5) ;;
  expiry_now <- time_time ;;
  validity <- environ_get "HEALTH_VALIDITY_HOURS" (PyStr "24") ;;
  hours <- lift (py_int host validity) ;;
  lift (safe_substitute host
         (<["EXPIRY_TIME_EPOCH_SEC" := PyInt (int_float expiry_now - hours * 60 * 60)]>
          (<["ITERATIONS" := iterations]>
           (<["SHORT_GUID" := short_guid]>
            (<["IMAGE_TAG" := image_tag]>
             (<["R_LEVEL" := r_level]>
              (<["ORIG_CHECK_TIME_EPOCH_SEC" := orig_check_time]>
               (<["DRY_RUN" := dry_run]>
                (<["CHECK_TIME_EPOCH_SEC" := PyInt (int_float check_time)]> ∅))))))))
         t).

(** [create_k8s_objects], lines 177-190. *)
Definition create_k8s_objects (yaml_path kubectl_path : string) : M (list Cleanup) :=
  let cleanup_functions := [] in
  expanded_yaml_content <- expand_template yaml_path ;;
  file_name <- write_temp_file expanded_yaml_content ;;
  f <- apply_yaml_file file_name kubectl_path ;;
  let cleanup_functions := cleanup_functions ++ [f] in
  ret cleanup_functions.

End WithHost.

(** The state in which [run_command command] starts its subprocess: the
    announcement is printed and the start time is read. *)
Definition launch_state (command : string) (st : State) : State :=
  {| printed := printed st ++ ["running: " +:+ command]; ticks := S (ticks st);
     uuids := uuids st; temps := temps st; environ := environ st;
     files := files st; calls := calls st |}.

(** The result object of a command that exited with outcome [o]. *)
Definition completed (command : string) (o : Outcome) : CompletedProcess :=
  {| args := command; returncode := exit_status o;
     stdout := out_text o; stderr := err_text o |}.

(** The validity period in hours as the specification words it: the
    integer value of [HEALTH_VALIDITY_HOURS], 24 when the variable is
    absent. *)
Definition health_validity_hours (host : Host) (env : gmap string string) : option Z :=
  match env !! "HEALTH_VALIDITY_HOURS" with
  | Some text => int_of_text host text
  | None => Some 24
  end.

(** [n] is [t] without its fraction: what [int(t)] is for a float [t]. *)
Definition whole_part (t : Q) (n : Z) : Prop :=
  (0 ≤ n ∧ (inject_Z n <= t)%Q ∧ (t < inject_Z (n + 1))%Q)
  ∨ (n ≤ 0 ∧ (inject_Z (n - 1) < t)%Q ∧ (t <= inject_Z n)%Q).

(** The integer [z] is within what [int()] and [str()] convert to and
    from decimal text: it has at most 640 digits, or no limit is set, or it
    has at most as many digits as the limit says. *)
Definition within_limit (host : Host) (z : Z) : Prop :=
  Z.abs z < 10 ^ Z.of_N digits_threshold
  ∨ max_str_digits host = 0%N
  ∨ Z.abs z < 10 ^ Z.of_N (max_str_digits host).

(** What is written when [middle] stands between two rendered runs of
    pieces: an exception of the run before comes first, then one of the
    run after. *)
Definition around (before : Result string) (middle : string) (after : Result string)
    : Result string :=
  match before with
  | Raise e => Raise e
  | Ok b =>
      match after with
      | Raise e => Raise e
      | Ok a => Ok (b +:+ middle +:+ a)
      end
  end.

(** ** A concrete host and process, to run the functions on *)

Module Sample.

(** The clock stands still, [exit N] exits with status [N = 1], every
    other command succeeds and echoes itself. *)
Definition host : Host :=
  {| clock := λ _, (1730000000 # 1)%Q;
     float_sub := λ a b, (a - b)%Q;
     float_str := λ _, "0.0";
     uuid4_str := λ _, "3f2a9c1e-0000-4000-8000-000000000000";
     temp_name := λ n, "/tmp/tmp" +:+ pretty (Z.of_nat n);
     shell := λ _ command,
       if String.eqb command "exit 1"
       then {| exit_status := 1; out_text := ""; err_text := "" |}
       else {| exit_status := 0; out_text := command; err_text := "" |};
     int_unicode := λ _, None;
     max_str_digits := 4300 |}.

(** A host on which every command fails. *)
Definition failing_host : Host :=
  {| clock := clock host; float_sub := float_sub host;
     float_str := float_str host; uuid4_str := uuid4_str host;
     temp_name := temp_name host;
     shell := λ _ _, {| exit_status := 1; out_text := ""; err_text := "boom" |};
     int_unicode := int_unicode host;
     max_str_digits := max_str_digits host |}.

Definition template : string :=
  "dry: ${DRY_RUN} foo: ${FOO} expiry: ${EXPIRY_TIME_EPOCH_SEC}".

(** No environment variable is set. *)
Definition state : State :=
  {| printed := []; ticks := 0; uuids := 0; temps := 0;
     environ := ∅;
     files := {[ "check.yaml" := template; "dry.yaml" := "${DRY_RUN}" ]};
     calls := [] |}.

(** [DRY_RUN=true] and [HEALTH_VALIDITY_HOURS=2]. *)
Definition state_set : State :=
  {| printed := []; ticks := 0; uuids := 0; temps := 0;
     environ := {[ "DRY_RUN" := "true"; "HEALTH_VALIDITY_HOURS" := "2" ]};
     files := files state;
     calls := [] |}.

End Sample.

(** ** Node labels *)

Section Labels.
Variable host : Host.

(** [format % (a, b, c)] for a format that the caller supplies.  The
    operator is the language's; it is taken as it is, a function from the
    format and the arguments to the text or the exception it gives. *)
Variable percent : string → list string → Result string.

(** [add_label], lines 37-52.  The format of the announcement is fixed and
    takes three texts, so it is written out. *)
Definition add_label (node_name label value label_format : string) : M unit :=
  print ("adding label " +:+ label +:+ "=" +:+ value +:+ " to node " +:+ node_name) ;;
  command <- lift (percent label_format [node_name; label; value]) ;;
  run_command host command false ;;
  ret ().

End Labels.

(** ** What an expansion sees *)

(** The dictionary that [expand_template] hands to [safe_substitute] when
    it is called in state [st] and the validity period is [hours]: the
    first reading of the clock dates the check, the second the expiry. *)
Definition template_mapping (host : Host) (st : State) (hours : Z) : gmap string PyVal :=
  <["EXPIRY_TIME_EPOCH_SEC" := PyInt (int_float (clock host (S (ticks st))) - hours * 60 * 60)]>
  (<["ITERATIONS" := from_option PyStr (PyInt 5) (environ st !! "ITERATIONS")]>
  (<["SHORT_GUID" := from_option PyStr
                       (PyStr (String.substring 0 4 (uuid4_str host (uuids st))))
                       (environ st !! "SHORT_GUID")]>
  (<["IMAGE_TAG" := from_option PyStr (PyStr "latest") (environ st !! "IMAGE_TAG")]>
  (<["R_LEVEL" := from_option PyStr PyNone (environ st !! "R_LEVEL")]>
  (<["ORIG_CHECK_TIME_EPOCH_SEC" :=
       from_option PyStr PyNone (environ st !! "CHECK_TIME_EPOCH_SEC")]>
  (<["DRY_RUN" := from_option PyStr PyNone (environ st !! "DRY_RUN")]>
  (<["CHECK_TIME_EPOCH_SEC" := PyInt (int_float (clock host (ticks st)))]> ∅))))))).

(** The state after an expansion that returned: two readings of the clock
    and one identifier were taken. *)
Definition expanded_state (st : State) : State :=
  {| printed := printed st; ticks := S (S (ticks st)); uuids := S (uuids st);
     temps := temps st; environ := environ st; files := files st;
     calls := calls st |}.

(** No character of [s] is the delimiter. *)
Fixpoint no_delimiter (s : string) : bool :=
  match s with
  | "" => true
  | String c s' => negb (Ascii.eqb c "$") && no_delimiter s'
  end.

(** Only ASCII digits. *)
Fixpoint all_digits (s : string) : bool :=
  match s with
  | "" => true
  | String c s' => bool_decide (is_Some (digit_value c)) && all_digits s'
  end.

(** No character of [s] is white space. *)
Fixpoint no_space (s : string) : bool :=
  match s with
  | "" => true
  | String c s' => negb (is_space c) && no_space s'
  end.

(** A piece that [safe_substitute] writes back as it stands under the
    dictionary of [expand_template]: a character, a lone delimiter, or a
    placeholder with a name that is not recognized. *)
Definition kept_piece (p : Piece) : bool :=
  match p with
  | Text _ | Found Invalid => true
  | Found Escaped => false
  | Found (Named id) | Found (Braced id) => bool_decide (id ∉ recognized_names)
  end.

(** ** More hosts and processes to run the functions on *)

Module Trial.

(** The [%] operator on the formats that use [%s] and [%%] only. [pending]
    says that the character before was an unfinished [%]. *)
Fixpoint percent_from (pending : bool) (format : string) (args : list string)
    : Result string :=
  let prepend (s : string) (r : Result string) : Result string :=
    match r with
    | Ok t => Ok (s +:+ t)
    | Raise e => Raise e
    end in
  match format with
  | "" =>
      if pending then Raise (ValueError "incomplete format")
      else match args with
           | [] => Ok ""
           | _ :: _ => Raise TypeError
           end
  | String c rest =>
      if pending then
        if Ascii.eqb c "s" then
          match args with
          | a :: args' => prepend a (percent_from false rest args')
          | [] => Raise TypeError
          end
        else if Ascii.eqb c "%" then prepend "%" (percent_from false rest args)
        else Raise (ValueError "unsupported format character")
      else if Ascii.eqb c "%" then percent_from true rest args
      else prepend (String c "") (percent_from false rest args)
  end.

Definition percent : string → list string → Result string := percent_from false.

(** A clock that advances by one second at every reading. *)
Definition ticking_host : Host :=
  {| clock := λ n, (1730000000 + Z.of_nat n # 1)%Q;
     float_sub := float_sub Sample.host;
     float_str := float_str Sample.host; uuid4_str := uuid4_str Sample.host;
     temp_name := temp_name Sample.host;
     shell := shell Sample.host;
     int_unicode := int_unicode Sample.host;
     max_str_digits := max_str_digits Sample.host |}.

(** Every recognized name but two, without braces. *)
Definition all_text : string :=
  "$CHECK_TIME_EPOCH_SEC $ORIG_CHECK_TIME_EPOCH_SEC $R_LEVEL $SHORT_GUID $ITERATIONS $EXPIRY_TIME_EPOCH_SEC".

(** An earlier check left its time in the environment. *)
Definition env_check : gmap string string :=
  {[ "CHECK_TIME_EPOCH_SEC" := "1700000000" ]}.

Definition yaml_files : gmap string string :=
  {[ "plain.yaml" := "kind: Pod";
     "image.yaml" := "image: repo/app:${IMAGE_TAG}";
     "odd.yaml" := "cost: 5$ ${FOO} $bar ${ open";
     "escape.yaml" := "price: $$5";
     "all.yaml" := all_text ]}.

Definition state_with (env : gmap string string) : State :=
  {| printed := []; ticks := 0; uuids := 0; temps := 0;
     environ := env; files := yaml_files; calls := [] |}.

End Trial.

(** * Properties *)

(** ** Facts about strings *)

Module StrFacts.

Lemma app_cons (c : ascii) (s1 s2 : string) :
  String c s1 +:+ s2 = String c (s1 +:+ s2).
Proof. done. Qed.

Lemma app_nil_l (s : string) : "" +:+ s = s.
Proof. done. Qed.

Lemma app_nil_r (s : string) : s +:+ "" = s.
Proof. induction s as [|c s IH]; [done|]. by rewrite app_cons, IH. Qed.

Lemma app_assoc (s1 s2 s3 : string) : (s1 +:+ s2) +:+ s3 = s1 +:+ s2 +:+ s3.
Proof. induction s1 as [|c s1 IH]; [done|]. by rewrite !app_cons, IH. Qed.

Lemma length_app (s1 s2 : string) :
  String.length (s1 +:+ s2) = (String.length s1 + String.length s2)%nat.
Proof.
  induction s1 as [|c s1 IH]; [done|]. rewrite app_cons. cbn. by rewrite IH.
Qed.

Lemma join_cons (s : string) (l : list string) :
  Str.join (s :: l) = s +:+ Str.join l.
Proof. done. Qed.

Lemma join_app (l1 l2 : list string) :
  Str.join (l1 ++ l2) = Str.join l1 +:+ Str.join l2.
Proof.
  induction l1 as [|s l1 IH]; [done|].
  change (s +:+ Str.join (l1 ++ l2) = (s +:+ Str.join l1) +:+ Str.join l2).
  by rewrite IH, app_assoc.
Qed.

Lemma drop_0 (s : string) : Str.drop 0 s = s.
Proof. by destruct s. Qed.

Lemma drop_app_length (s1 s2 : string) :
  Str.drop (String.length s1) (s1 +:+ s2) = s2.
Proof.
  induction s1 as [|c s1 IH]; [by destruct s2|]. by rewrite app_cons.
Qed.

End StrFacts.

(** ** Helm command builder *)

Lemma set_loop (d : StrDict) (command : string) :
  fold_left (λ command kv, command +:+ " --set " +:+ kv.1 +:+ "=" +:+ kv.2) d command
  = command +:+ Str.join (set_fragment <$> d).
Proof.
  revert command. induction d as [|kv d IH]; intros command.
  - cbn. by rewrite StrFacts.app_nil_r.
  - cbn [fold_left fmap list_fmap]. rewrite IH, StrFacts.join_cons.
    unfold set_fragment. by rewrite StrFacts.app_assoc.
Qed.

(** The install branch, with the conditional appends gathered. *)
Lemma install_command_shape
    (helm_path release_name : string) (chart : option string)
    (values : option StrDict) (chart_version helm_install_flags : option string) :
  generate_helm_command helm_path release_name chart values
                        chart_version helm_install_flags INSTALL
  = (helm_path +:+ " install " +:+ release_name +:+ " " +:+ py_str (of_opt chart))
    +:+ version_fragment chart_version
    +:+ set_fragments values
    +:+ flags_fragment helm_install_flags.
Proof.
  unfold generate_helm_command, version_fragment, set_fragments, flags_fragment.
  destruct chart_version as [v|], values as [d|], helm_install_flags as [f|];
    rewrite ?set_loop, ?StrFacts.app_assoc, ?StrFacts.app_nil_l, ?StrFacts.app_nil_r;
    reflexivity.
Qed.


(** C2, as the code has it: in uninstall mode the command is exactly
    [<helm_path> uninstall <release_name>], whatever [chart], [values],
    [chart_version] and [helm_install_flags] are; so the chart name occurs
    in it exactly when it occurs in that text. *)
Theorem generate_helm_command_uninstall
    (helm_path release_name : string) (chart : option string)
    (values : option StrDict) (chart_version helm_install_flags : option string) :
  generate_helm_command helm_path release_name chart values
                        chart_version helm_install_flags UNINSTALL
  = helm_path +:+ " uninstall " +:+ release_name
  ∧ ∀ name : string,
      Str.contains name
        (generate_helm_command helm_path release_name chart values
                               chart_version helm_install_flags UNINSTALL)
      = Str.contains name (helm_path +:+ " uninstall " +:+ release_name).
Proof. split; reflexivity. Qed.

(** C2 as stated fails: uninstalling release [nginx] of chart [nginx]
    gives a command that contains the chart name. *)
Lemma uninstall_command_contains_chart_name :
  generate_helm_command "helm" "nginx" (Some "nginx") None None None UNINSTALL
  = "helm uninstall nginx"
  ∧ Str.contains "nginx"
      (generate_helm_command "helm" "nginx" (Some "nginx") None None None UNINSTALL)
    = true.
Proof. split; reflexivity. Qed.

(** C10: with the chart omitted the install command is
    [<helm_path> install <release_name> None]; the other optional
    arguments, when given, add their fragments after it. *)
Theorem generate_helm_command_chart_omitted (helm_path release_name : string) :
  generate_helm_command helm_path release_name None None None None INSTALL
  = helm_path +:+ " install " +:+ release_name +:+ " None"
  ∧ ∀ (values : option StrDict) (chart_version helm_install_flags : option string),
      generate_helm_command helm_path release_name None values
                            chart_version helm_install_flags INSTALL
      = (helm_path +:+ " install " +:+ release_name +:+ " None")
        +:+ version_fragment chart_version
        +:+ set_fragments values
        +:+ flags_fragment helm_install_flags.
Proof.
  split; [reflexivity|]. intros values chart_version helm_install_flags.
  apply (install_command_shape helm_path release_name None).
Qed.

(** ** Command runner *)

Section RunCommand.
Variable host : Host.

(** Without [check] the call returns the result object, whatever the
    exit status; it starts exactly one subprocess and leaves the files
    and the environment alone. *)
Lemma run_command_unchecked (command : string) (st : State) :
  ∃ st',
    run_command host command false st
    = (Ok (completed command (shell host (launch_state command st) command)), st')
    ∧ calls st' = calls st ++ [(command, false)]
    ∧ files st' = files st
    ∧ environ st' = environ st
    ∧ temps st' = temps st.
Proof.
  unfold run_command, bind, print, time_time, subprocess_run, ret. cbn.
  eexists. split; [reflexivity|]. done.
Qed.

(** With [check] a non-zero exit status leaves as an exception, and the
    line reporting the elapsed time is not printed. *)
Lemma run_command_checked_failure (command : string) (st : State) :
  let o := shell host (launch_state command st) command in
  exit_status o ≠ 0 →
  run_command host command true st
  = (Raise (CalledProcessError (exit_status o) command (out_text o) (err_text o)),
     {| printed := printed st ++ ["running: " +:+ command]; ticks := S (ticks st);
        uuids := uuids st; temps := temps st; environ := environ st;
        files := files st; calls := calls st ++ [(command, true)] |}).
Proof.
  intros o Hne.
  unfold run_command, bind, print, time_time, subprocess_run, ret. cbn.
  fold (launch_state command st). fold o.
  destruct (Z.eqb_spec (exit_status o) 0) as [Heq|_]; [done|]. reflexivity.
Qed.

End RunCommand.

(** C3: with [check] set, a non-zero exit status makes [run_command] fail
    with [CalledProcessError] carrying the status and both captured
    streams; without it the status is only recorded in the returned
    result object. *)
Theorem run_command_check (host : Host) (command : string) (st : State) :
  let o := shell host (launch_state command st) command in
  (exit_status o ≠ 0 →
   (run_command host command true st).1
   = Raise (CalledProcessError (exit_status o) command (out_text o) (err_text o)))
  ∧ (run_command host command false st).1
    = Ok {| args := command; returncode := exit_status o;
            stdout := out_text o; stderr := err_text o |}.
Proof.
  intros o. split.
  - intros Hne. by rewrite run_command_checked_failure.
  - destruct (run_command_unchecked host command st) as (st' & -> & _). done.
Qed.

(** [exit 1] on the sample host: raised with [check], returned without. *)
Lemma run_command_check_witness :
  (run_command Sample.host "exit 1" true Sample.state).1
  = Raise (CalledProcessError 1 "exit 1" "" "")
  ∧ (run_command Sample.host "exit 1" false Sample.state).1
    = Ok {| args := "exit 1"; returncode := 1; stdout := ""; stderr := "" |}.
Proof.
  pose proof (run_command_check Sample.host "exit 1" Sample.state) as [Hraise Hret].
  split; [apply Hraise; vm_compute; discriminate | exact Hret].
Defined.

(** ** Provisioning and cleanup *)

Section Provisioning.
Variable host : Host.

Lemma install_helm_release_runs
    (helm_path release_name : string) (chart : option string)
    (values : option StrDict) (chart_version helm_install_flags : option string)
    (st : State) :
  ∃ st',
    install_helm_release host helm_path release_name chart values
                         chart_version helm_install_flags st
    = (Ok (run_command host (helm_path +:+ " uninstall " +:+ release_name) false), st')
    ∧ calls st'
      = calls st ++ [(generate_helm_command helm_path release_name chart values
                        chart_version helm_install_flags INSTALL, false)].
Proof.
  unfold install_helm_release, bind.
  destruct (run_command_unchecked host
              (generate_helm_command helm_path release_name chart values
                 chart_version helm_install_flags INSTALL) st)
    as (st' & -> & Hcalls & _).
  exists st'. done.
Qed.

Lemma apply_yaml_file_runs (yaml_path kubectl_path : string) (st : State) :
  ∃ st',
    apply_yaml_file host yaml_path kubectl_path st
    = (Ok (run_command host (kubectl_path +:+ " delete -f " +:+ yaml_path) false), st')
    ∧ calls st' = calls st ++ [(kubectl_path +:+ " apply -f " +:+ yaml_path, false)].
Proof.
  unfold apply_yaml_file, bind, K_APPLY_FORMAT, K_DELETE_FORMAT.
  destruct (run_command_unchecked host
              (kubectl_path +:+ " apply -f " +:+ yaml_path) st)
    as (st' & -> & Hcalls & _).
  exists st'. done.
Qed.

End Provisioning.

(** C4: the cleanup action returned by [install_helm_release] runs one
    command, and that command is what [generate_helm_command] builds in
    uninstall mode for the same [helm_path] and [release_name], whatever
    its other arguments. *)
Theorem install_helm_release_cleanup_command
    (host : Host) (helm_path release_name : string) (chart : option string)
    (values : option StrDict) (chart_version helm_install_flags : option string)
    (st : State) :
  ∃ (cleanup : Cleanup) (st' : State),
    install_helm_release host helm_path release_name chart values
                         chart_version helm_install_flags st
    = (Ok cleanup, st')
    ∧ ∀ (st2 : State) (chart' : option string) (values' : option StrDict)
        (chart_version' helm_install_flags' : option string),
        calls (cleanup st2).2
        = calls st2
          ++ [(generate_helm_command helm_path release_name chart' values'
                 chart_version' helm_install_flags' UNINSTALL, false)].
Proof.
  destruct (install_helm_release_runs host helm_path release_name chart values
              chart_version helm_install_flags st) as (st' & Hrun & _).
  eexists _, st'. split; [exact Hrun|].
  intros st2 chart' values' chart_version' helm_install_flags'.
  destruct (run_command_unchecked host
              (helm_path +:+ " uninstall " +:+ release_name) st2)
    as (st3 & -> & Hcalls & _).
  exact Hcalls.
Qed.

(** C8: the forward command of [install_helm_release] and of
    [apply_yaml_file] is run without [check]; whatever its exit status,
    the call returns normally, and what it returns is the cleanup action:
    the closure that runs the uninstall command, or the delete command for
    the applied file. *)
Theorem forward_failure_not_surfaced
    (host : Host) (helm_path release_name : string) (chart : option string)
    (values : option StrDict) (chart_version helm_install_flags : option string)
    (yaml_path kubectl_path : string) (st : State) :
  (∃ (cleanup : Cleanup) (st' : State),
     install_helm_release host helm_path release_name chart values
                          chart_version helm_install_flags st
     = (Ok cleanup, st')
     ∧ cleanup = run_command host (helm_path +:+ " uninstall " +:+ release_name) false
     ∧ calls st'
       = calls st ++ [(generate_helm_command helm_path release_name chart values
                         chart_version helm_install_flags INSTALL, false)])
  ∧ (∃ (cleanup : Cleanup) (st' : State),
       apply_yaml_file host yaml_path kubectl_path st = (Ok cleanup, st')
       ∧ cleanup = run_command host (kubectl_path +:+ " delete -f " +:+ yaml_path) false
       ∧ calls st' = calls st ++ [(kubectl_path +:+ " apply -f " +:+ yaml_path, false)]).
Proof.
  split.
  - destruct (install_helm_release_runs host helm_path release_name chart values
                chart_version helm_install_flags st) as (st' & Hrun & Hcalls).
    eexists _, st'. split; [exact Hrun|]. split; [reflexivity|exact Hcalls].
  - destruct (apply_yaml_file_runs host yaml_path kubectl_path st)
      as (st' & Hrun & Hcalls).
    eexists _, st'. split; [exact Hrun|]. split; [reflexivity|exact Hcalls].
Qed.

(** ** Template scanning *)

Section Scanning.
Variable host : Host.

Lemma id_chars_prefix (s : string) :
  s = id_chars s +:+ Str.drop (String.length (id_chars s)) s.
Proof.
  induction s as [|c s IH]; [done|]. cbn [id_chars].
  destruct (is_id_char c); [|done].
  rewrite StrFacts.app_cons. cbn [String.length Str.drop]. by rewrite <- IH.
Qed.

Lemma identifier_prefix (s id : string) :
  identifier s = Some id → s = id +:+ Str.drop (String.length id) s.
Proof.
  destruct s as [|c s]; [done|]. cbn [identifier].
  destruct (is_id_start c); [|done]. intros [= <-].
  rewrite StrFacts.app_cons. cbn [String.length Str.drop].
  by rewrite <- id_chars_prefix.
Qed.

(** A match covers the delimiter and a prefix of what follows it. *)
Lemma match_covers (s : string) :
  ∃ pre : string,
    group0 (match_after_delimiter s) = String "$" pre
    ∧ s = pre +:+ Str.drop (String.length pre) s.
Proof.
  destruct s as [|c s]; [by exists ""|].
  unfold match_after_delimiter.
  destruct (Ascii.eqb_spec c "$") as [->|_]; [by exists "$"|].
  destruct (identifier (String c s)) as [id|] eqn:Hid.
  { exists id. split; [done|]. by apply identifier_prefix. }
  destruct (Ascii.eqb_spec c "{") as [->|_]; [|by exists ""].
  destruct (identifier s) as [id|] eqn:Hid'; [|by exists ""].
  apply identifier_prefix in Hid'.
  destruct (Str.drop (String.length id) s) as [|c' rest] eqn:Hrest; [by exists ""|].
  destruct (Ascii.eqb_spec c' "}") as [->|_]; [|by exists ""].
  exists ("{" +:+ id +:+ "}"). split; [done|].
  clear Hrest. subst s.
  assert (String "{" (id +:+ String "}" rest) = ("{" +:+ id +:+ "}") +:+ rest) as ->.
  { change (String "{" (id +:+ "}" +:+ rest) = String "{" ((id +:+ "}") +:+ rest)).
    by rewrite StrFacts.app_assoc. }
  by rewrite StrFacts.drop_app_length.
Qed.

(** The pieces of a template spell the template: nothing is lost and
    every piece sits at its place. *)
Lemma pieces_from_text (s : string) (skip : nat) :
  (skip ≤ String.length s)%nat →
  Str.join (piece_text <$> pieces_from skip s) = Str.drop skip s.
Proof.
  revert skip. induction s as [|c s IH]; intros skip Hskip.
  - by destruct skip.
  - destruct skip as [|k]; cbn [pieces_from Str.drop].
    + destruct (Ascii.eqb_spec c "$") as [->|_].
      * destruct (match_covers s) as (pre & Hpre & Hs).
        cbn [fmap list_fmap]. rewrite StrFacts.join_cons. cbn [piece_text].
        rewrite Hpre. cbn [String.length]. rewrite Nat.sub_succ, Nat.sub_0_r.
        rewrite IH.
        -- by rewrite StrFacts.app_cons, <- Hs.
        -- apply (f_equal String.length) in Hs.
           rewrite StrFacts.length_app in Hs. lia.
      * cbn [fmap list_fmap]. rewrite StrFacts.join_cons. cbn [piece_text].
        rewrite IH by lia. by rewrite StrFacts.drop_0.
    + apply IH. cbn in Hskip. lia.
Qed.

Lemma pieces_text (template : string) :
  Str.join (piece_text <$> pieces template) = template.
Proof.
  unfold pieces. rewrite pieces_from_text by lia. apply StrFacts.drop_0.
Qed.

Lemma render_app (mapping : gmap string PyVal) (before after : list Piece) :
  render host mapping (before ++ after)
  = match render host mapping before with
    | Raise e => Raise e
    | Ok b =>
        match render host mapping after with
        | Raise e => Raise e
        | Ok a => Ok (b +:+ a)
        end
    end.
Proof.
  induction before as [|p before IH]; cbn [app render].
  - by destruct (render host mapping after).
  - destruct (substitute_piece host mapping p) as [s|e]; [|done]. rewrite IH.
    destruct (render host mapping before) as [b|e]; [|done].
    destruct (render host mapping after) as [a|e]; [|done].
    by rewrite StrFacts.app_assoc.
Qed.

(** A piece that is written as [middle] stands between the renderings of
    what comes before and after it. *)
Lemma render_split
    (mapping : gmap string PyVal) (before after : list Piece) (p : Piece)
    (middle : string) :
  substitute_piece host mapping p = Ok middle →
  render host mapping (before ++ p :: after)
  = around (render host mapping before) middle (render host mapping after).
Proof.
  intros Hp. rewrite render_app. cbn [render]. rewrite Hp. unfold around.
  destruct (render host mapping before) as [b|e]; [|done].
  by destruct (render host mapping after).
Qed.

Lemma text_split (before after : list Piece) (p : Piece) :
  Str.join (piece_text <$> (before ++ p :: after))
  = Str.join (piece_text <$> before) +:+ piece_text p
    +:+ Str.join (piece_text <$> after).
Proof. by rewrite fmap_app, StrFacts.join_app, fmap_cons, StrFacts.join_cons. Qed.

(** A placeholder without a value is written back as it stands. *)
Lemma substitute_unknown (mapping : gmap string PyVal) (p : Piece) (name : string) :
  placeholder_name p = Some name →
  mapping !! name = None →
  substitute_piece host mapping p = Ok (piece_text p).
Proof.
  destruct p as [c|[| id | id |]]; try done; intros [= ->] Hnone; cbn; by rewrite Hnone.
Qed.

(** A placeholder with a value is replaced by [str()] of the value. *)
Lemma substitute_known (mapping : gmap string PyVal) (p : Piece) (name : string) (v : PyVal) :
  placeholder_name p = Some name →
  mapping !! name = Some v →
  substitute_piece host mapping p = str_value host v.
Proof.
  destruct p as [c|[| id | id |]]; try done; intros [= ->] Hsome; cbn; by rewrite Hsome.
Qed.

End Scanning.


(** ** Decimal text and [int()] *)

Module DecimalFacts.

Lemma digit_cases (d : N) :
  (d < 10)%N →
  d = 0%N ∨ d = 1%N ∨ d = 2%N ∨ d = 3%N ∨ d = 4%N ∨ d = 5%N ∨ d = 6%N
  ∨ d = 7%N ∨ d = 8%N ∨ d = 9%N.
Proof. lia. Qed.

Lemma digit_value_char (d : N) :
  (d < 10)%N → digit_value (pretty_N_char d) = Some (Z.of_N d).
Proof.
  intros H. pose proof (digit_cases d H) as Hd.
  destruct_or! Hd; subst d; reflexivity.
Qed.

Lemma pretty_go_digits (x : N) (s : string) :
  all_digits s = true → all_digits (pretty_N_go x s) = true.
Proof.
  revert s. induction (N.lt_wf_0 x) as [x _ IH]. intros s Hs.
  destruct (decide (0 < x)%N) as [Hpos|Hzero].
  - rewrite pretty_N_go_step by done. apply IH.
    + apply N.div_lt; lia.
    + cbn [all_digits]. rewrite Hs, andb_true_r. apply bool_decide_eq_true.
      rewrite digit_value_char; [done|]. apply N.mod_lt. lia.
  - assert (x = 0%N) as -> by lia. by rewrite pretty_N_go_0.
Qed.

Lemma pretty_go_value (x : N) (s : string) :
  (0 < x)%N →
  digits_value 0 false (pretty_N_go x s) = digits_value (Z.of_N x) true s.
Proof.
  revert s. induction (N.lt_wf_0 x) as [x _ IH]. intros s Hpos.
  rewrite pretty_N_go_step by done.
  assert (digit_value (pretty_N_char (x `mod` 10)%N) = Some (Z.of_N (x `mod` 10)%N)) as Hd.
  { apply digit_value_char, N.mod_lt. lia. }
  pose proof (N.div_mod x 10 ltac:(lia)) as Hx.
  assert (x `div` 10 < x)%N as Hlt by (apply N.div_lt; lia).
  revert Hd Hx Hlt. generalize (x `mod` 10)%N as r. generalize (x `div` 10)%N as q.
  intros q r Hd Hx Hlt.
  destruct (decide (0 < q)%N) as [Hq|Hq].
  - rewrite IH by done. cbn [digits_value]. rewrite Hd. f_equal. lia.
  - assert (q = 0%N) as -> by lia. rewrite pretty_N_go_0.
    cbn [digits_value]. rewrite Hd. f_equal. lia.
Qed.

(** A number below [10 ^ k] is written with at most [k] digits, and one
    from [10 ^ k] on with more than [k]. *)
Lemma pretty_go_count (x : N) (s : string) (k : N) :
  (0 < x)%N →
  ((x < 10 ^ k)%N → (count_digits (pretty_N_go x s) <= k + count_digits s)%N)
  ∧ ((10 ^ k <= x)%N → (k + count_digits s < count_digits (pretty_N_go x s))%N).
Proof.
  revert s k. induction (N.lt_wf_0 x) as [x _ IH]. intros s k Hpos.
  rewrite pretty_N_go_step by done.
  assert (digit_value (pretty_N_char (x `mod` 10)%N) = Some (Z.of_N (x `mod` 10)%N)) as Hd.
  { apply digit_value_char, N.mod_lt. lia. }
  pose proof (N.div_mod x 10 ltac:(lia)) as Hx.
  pose proof (N.mod_lt x 10 ltac:(lia)) as Hr.
  assert (x `div` 10 < x)%N as Hlt by (apply N.div_lt; lia).
  revert Hd Hx Hr Hlt. generalize (x `mod` 10)%N as r. generalize (x `div` 10)%N as q.
  intros q r Hd Hx Hr Hlt.
  assert (count_digits (String (pretty_N_char r) s) = (1 + count_digits s)%N) as Hcount.
  { cbn [count_digits]. by rewrite Hd. }
  destruct (decide (0 < q)%N) as [Hq|Hq].
  - destruct (N.eq_dec k 0%N) as [->|Hk].
    + split; [cbn; lia|]. intros _.
      destruct (IH q Hlt (String (pretty_N_char r) s) 0%N Hq) as [_ Hlow].
      rewrite Hcount in Hlow. specialize (Hlow ltac:(cbn; lia)). lia.
    + assert (k = N.succ (N.pred k)) as Hk' by lia.
      destruct (IH q Hlt (String (pretty_N_char r) s) (N.pred k) Hq) as [Hup Hlow].
      rewrite Hcount in Hup, Hlow.
      rewrite Hk', N.pow_succ_r' in *. rewrite <- Hk' in *.
      split; intros Hbound.
      * specialize (Hup ltac:(lia)). lia.
      * specialize (Hlow ltac:(lia)). lia.
  - assert (q = 0%N) as -> by lia. rewrite pretty_N_go_0, Hcount.
    destruct (N.eq_dec k 0%N) as [->|Hk].
    + split; [cbn; lia|lia].
    + assert (k = N.succ (N.pred k)) as Hk' by lia.
      pose proof (N.pow_nonzero 10 (N.pred k) ltac:(lia)) as Hnz.
      rewrite Hk', N.pow_succ_r'. rewrite <- Hk'.
      split; intros Hbound; lia.
Qed.

Lemma digit_not_space (c : ascii) : is_Some (digit_value c) → is_space c = false.
Proof.
  unfold digit_value, is_space. intros [d Hd].
  destruct (N.leb_spec 48 (N_of_ascii c)), (N.leb_spec (N_of_ascii c) 57);
    try discriminate.
  repeat match goal with
         | |- context [N.leb ?a ?b] => destruct (N.leb_spec a b); try lia
         | |- context [N.eqb ?a ?b] => destruct (N.eqb_spec a b); try lia
         end; reflexivity.
Qed.

Lemma digit_ascii (c : ascii) : is_Some (digit_value c) → (N_of_ascii c <? 128)%N = true.
Proof.
  unfold digit_value. intros [d Hd].
  destruct (N.leb_spec 48 (N_of_ascii c)), (N.leb_spec (N_of_ascii c) 57);
    try discriminate.
  apply N.ltb_lt. lia.
Qed.

Lemma all_digits_no_space (s : string) : all_digits s = true → no_space s = true.
Proof.
  induction s as [|c s IH]; [done|]. cbn [all_digits no_space].
  intros [Hc Hs]%andb_true_iff. apply bool_decide_eq_true in Hc.
  by rewrite (digit_not_space c Hc), IH.
Qed.

Lemma all_digits_ascii (s : string) : all_digits s = true → is_ascii_text s = true.
Proof.
  induction s as [|c s IH]; [done|]. cbn [all_digits is_ascii_text].
  intros [Hc Hs]%andb_true_iff. apply bool_decide_eq_true in Hc.
  by rewrite (digit_ascii c Hc), IH.
Qed.

Lemma no_space_rev_app (s1 s2 : string) :
  no_space (String.rev_app s1 s2) = no_space s1 && no_space s2.
Proof.
  revert s2. induction s1 as [|c s1 IH]; intros s2; [done|].
  cbn [String.rev_app no_space]. rewrite IH. cbn [no_space].
  by destruct (is_space c), (no_space s1), (no_space s2).
Qed.

Lemma rev_app_rev_app (s1 s2 s3 : string) :
  String.rev_app (String.rev_app s1 s2) s3 = String.rev_app s2 (s1 +:+ s3).
Proof.
  revert s2 s3. induction s1 as [|c s1 IH]; intros s2 s3; [done|].
  cbn [String.rev_app]. by rewrite IH.
Qed.

Lemma lstrip_no_space (s : string) : no_space s = true → lstrip s = s.
Proof.
  destruct s as [|c s]; [done|]. cbn [no_space lstrip].
  intros [Hc _]%andb_true_iff. apply negb_true_iff in Hc. by rewrite Hc.
Qed.

(** Text without white space has nothing to strip. *)
Lemma strip_no_space (s : string) : no_space s = true → strip s = s.
Proof.
  intros Hs. unfold strip. rewrite (lstrip_no_space s Hs).
  rewrite lstrip_no_space.
  - unfold String.rev. rewrite rev_app_rev_app. cbn [String.rev_app].
    apply StrFacts.app_nil_r.
  - unfold String.rev. by rewrite no_space_rev_app, Hs.
Qed.

(** A digit is neither sign. *)
Lemma digit_not_sign (c : ascii) :
  is_Some (digit_value c) → Ascii.eqb c "-" = false ∧ Ascii.eqb c "+" = false.
Proof.
  intros Hc. split.
  - destruct (Ascii.eqb_spec c "-") as [->|]; [|done].
    vm_compute in Hc. by destruct Hc.
  - destruct (Ascii.eqb_spec c "+") as [->|]; [|done].
    vm_compute in Hc. by destruct Hc.
Qed.

Lemma pretty_Z_cases (z : Z) :
  z = 0 ∧ pretty z = "0"
  ∨ ∃ x : N, (0 < x)%N ∧ Z.abs z = Z.of_N x
             ∧ (z = Z.of_N x ∧ pretty z = pretty_N_go x ""
                ∨ z = - Z.of_N x ∧ pretty z = String "-" (pretty_N_go x "")).
Proof.
  destruct z as [|p|p]; [by left|right; exists (N.pos p)..];
    (split; [lia|]); (split; [done|]); [left|right]; (split; [done|]);
    unfold pretty, pretty_Z, pretty, pretty_positive, pretty, pretty_N;
    by rewrite decide_False by lia.
Qed.

(** The decimal text of [z] has at most [k] digits exactly when [z] is
    below [10 ^ k] in size. *)
Lemma count_pretty (z : Z) (k : N) :
  (0 < k)%N →
  (count_digits (pretty z) <= k)%N ↔ Z.abs z < 10 ^ Z.of_N k.
Proof.
  intros Hk.
  assert (∀ x : N, Z.of_N x < 10 ^ Z.of_N k ↔ (x < 10 ^ k)%N) as Hpow.
  { intros x.
    replace (10 ^ Z.of_N k) with (Z.of_N (10 ^ k)) by (by rewrite N2Z.inj_pow).
    symmetry. apply N2Z.inj_lt. }
  destruct (pretty_Z_cases z) as [[-> ->]|(x & Hx & Habs & Htext)].
  - change (count_digits "0") with 1%N. change (Z.abs 0) with (Z.of_N 0).
    rewrite Hpow. pose proof (N.pow_nonzero 10 k ltac:(lia)). lia.
  - rewrite Habs, Hpow.
    destruct (pretty_go_count x "" k Hx) as [Hup Hlow].
    cbn [count_digits] in Hup, Hlow. rewrite N.add_0_r in Hup, Hlow.
    assert (count_digits (pretty z) = count_digits (pretty_N_go x "")) as ->.
    { by destruct Htext as [[_ ->]|[_ ->]]. }
    split; [|exact Hup]. intros Hle.
    destruct (N.lt_ge_cases x (10 ^ k)) as [|Hge]; [done|]. specialize (Hlow Hge). lia.
Qed.

(** The limit lets the text of [z] through exactly when [z] is within it. *)
Lemma over_limit_pretty (host : Host) (z : Z) :
  over_limit host (count_digits (pretty z)) = false ↔ within_limit host z.
Proof.
  unfold over_limit, within_limit.
  rewrite <- (count_pretty z digits_threshold) by done.
  destruct (N.ltb_spec digits_threshold (count_digits (pretty z))) as [Hover|Hunder];
    cbn [andb]; [|by split; [left|]].
  destruct (N.ltb_spec 0 (max_str_digits host)) as [Hlimit|Hnone]; cbn [andb].
  - rewrite <- (count_pretty z (max_str_digits host)) by done.
    destruct (N.ltb_spec (max_str_digits host) (count_digits (pretty z))).
    + split; [done|]. intros [?|[?|?]]; lia.
    + split; [by right; right|done].
  - split; [|done]. intros _. right; left. lia.
Qed.

(** [str()] writes an integer within the limit, and no other. *)
Lemma str_int_within (host : Host) (z : Z) :
  within_limit host z → str_int host z = Ok (pretty z).
Proof. intros Hz%over_limit_pretty. unfold str_int. by rewrite Hz. Qed.

Lemma str_int_beyond (host : Host) (z : Z) :
  ¬ within_limit host z → str_int host z = Raise (IntStrLimitError z).
Proof.
  intros Hz. unfold str_int.
  destruct (over_limit host (count_digits (pretty z))) eqn:E; [done|].
  by apply over_limit_pretty in E.
Qed.

(** Up to the limit, [int()] reads the decimal text of [z] as [z]. *)
Lemma int_of_ascii_text_pretty (host : Host) (z : Z) :
  int_of_ascii_text host (pretty z)
  = if over_limit host (count_digits (pretty z)) then None else Some z.
Proof.
  destruct (pretty_Z_cases z) as [[-> ->]|(x & Hx & _ & Htext)]; [done|].
  pose proof (pretty_go_digits x "" eq_refl) as Hdigits.
  pose proof (pretty_go_value x "" Hx) as Hvalue. cbn [digits_value] in Hvalue.
  destruct (pretty_N_go x "") as [|c rest] eqn:E; [done|].
  pose proof (all_digits_no_space _ Hdigits) as Hns.
  cbn [all_digits] in Hdigits. apply andb_true_iff in Hdigits as [Hc _].
  apply bool_decide_eq_true in Hc.
  destruct (digit_not_sign c Hc) as [Hminus Hplus].
  unfold int_of_ascii_text.
  destruct Htext as [[-> ->]|[-> ->]].
  - rewrite (strip_no_space _ Hns). cbv zeta. by rewrite Hminus, Hplus, Hvalue.
  - assert (no_space (String "-" (String c rest)) = true) as Hns'.
    { change (negb (is_space "-") && no_space (String c rest) = true). by rewrite Hns. }
    rewrite (strip_no_space _ Hns'). cbv zeta.
    change (Ascii.eqb "-" "-") with true. cbv iota. by rewrite Hvalue.
Qed.

Lemma pretty_ascii (z : Z) : is_ascii_text (pretty z) = true.
Proof.
  destruct (pretty_Z_cases z) as [[-> ->]|(x & _ & _ & Htext)]; [done|].
  pose proof (all_digits_ascii _ (pretty_go_digits x "" eq_refl)) as Hgo.
  destruct Htext as [[_ ->]|[_ ->]]; [done|].
  cbn [is_ascii_text]. by rewrite Hgo.
Qed.

(** [int(str(z))] is [z] for an integer within the limit. *)
Lemma int_of_text_pretty (host : Host) (z : Z) :
  within_limit host z → int_of_text host (pretty z) = Some z.
Proof.
  intros Hz%over_limit_pretty.
  unfold int_of_text. by rewrite pretty_ascii, int_of_ascii_text_pretty, Hz.
Qed.

(** The text of an integer beyond the limit is not taken. *)
Lemma int_of_text_pretty_beyond (host : Host) (z : Z) :
  ¬ within_limit host z → int_of_text host (pretty z) = None.
Proof.
  intros Hz. unfold int_of_text. rewrite pretty_ascii, int_of_ascii_text_pretty.
  destruct (over_limit host (count_digits (pretty z))) eqn:E; [done|].
  by apply over_limit_pretty in E.
Qed.

End DecimalFacts.

(** [int()] of a float is its whole part. *)
Lemma int_float_whole_part (t : Q) (n : Z) : whole_part t n → int_float t = n.
Proof.
  destruct t as [a d]. unfold whole_part, int_float, Qle, Qlt. cbn.
  intros [(Hn & Hle & Hlt)|(Hn & Hlt & Hle)].
  - rewrite Z.quot_div_nonneg by nia. symmetry. apply (Z.div_unique a (Z.pos d) n (a - n * Z.pos d)); nia.
  - rewrite <- (Z.opp_involutive a), Z.quot_opp_l by lia.
    rewrite Z.quot_div_nonneg by nia.
    rewrite <- (Z.div_unique (- a) (Z.pos d) (- n) (- a + n * Z.pos d)); nia.
Qed.

(** ** Template expansion *)

Section Expansion.
Variable host : Host.

Lemma validity_parsed (st : State) (hours : Z) :
  health_validity_hours host (environ st) = Some hours →
  py_int host match environ st !! "HEALTH_VALIDITY_HOURS" with
              | Some v => PyStr v
              | None => PyStr "24"
              end = Ok hours.
Proof.
  unfold health_validity_hours.
  destruct (environ st !! "HEALTH_VALIDITY_HOURS") as [text|]; cbn [py_int].
  - by intros ->.
  - by intros [= <-].
Qed.

(** With the file read and the hours parsed, the call is the substitution
    under [template_mapping]. *)
Lemma expand_template_ok (path : string) (st : State) (text : string) (hours : Z) :
  files st !! path = Some text →
  health_validity_hours host (environ st) = Some hours →
  expand_template host path st
  = (safe_substitute host (template_mapping host st hours) text, expanded_state st).
Proof.
  intros Hfile Hhours. apply (validity_parsed st hours) in Hhours.
  unfold expand_template, bind, read_file, time_time, environ_get, uuid4, lift, ret.
  rewrite Hfile. cbn [fst snd ticks uuids environ]. rewrite Hhours.
  unfold template_mapping, expanded_state.
  by destruct (environ st !! "ITERATIONS"), (environ st !! "SHORT_GUID"),
       (environ st !! "IMAGE_TAG"), (environ st !! "R_LEVEL"),
       (environ st !! "CHECK_TIME_EPOCH_SEC"), (environ st !! "DRY_RUN").
Qed.

Lemma expand_template_no_file (path : string) (st : State) :
  files st !! path = None →
  expand_template host path st = (Raise (FileNotFoundError path), st).
Proof.
  intros Hfile. unfold expand_template, bind, read_file. by rewrite Hfile.
Qed.

Lemma expand_template_bad_hours (path : string) (st : State) (text literal : string) :
  files st !! path = Some text →
  environ st !! "HEALTH_VALIDITY_HOURS" = Some literal →
  int_of_text host literal = None →
  expand_template host path st = (Raise (ValueError literal), expanded_state st).
Proof.
  intros Hfile Henv Hint.
  unfold expand_template, bind, read_file, time_time, environ_get, uuid4, lift, ret.
  rewrite Hfile. cbn [fst snd ticks uuids environ]. rewrite Henv.
  cbn [py_int]. by rewrite Hint.
Qed.

(** After the file is read the call takes two readings of the clock and
    one identifier, however it ends. *)
Lemma expand_template_read_state (path : string) (st : State) (text : string) :
  files st !! path = Some text →
  (expand_template host path st).2 = expanded_state st.
Proof.
  intros Hfile.
  unfold expand_template, bind, read_file, time_time, environ_get, uuid4, lift, ret.
  rewrite Hfile. cbn [fst snd ticks uuids environ].
  by destruct (py_int host _).
Qed.

Lemma expand_template_quiet (path : string) (st : State) :
  calls (expand_template host path st).2 = calls st
  ∧ temps (expand_template host path st).2 = temps st
  ∧ files (expand_template host path st).2 = files st.
Proof.
  destruct (files st !! path) as [text|] eqn:Hfile.
  - by rewrite (expand_template_read_state path st text Hfile).
  - by rewrite (expand_template_no_file path st Hfile).
Qed.

Lemma template_mapping_unrecognized (st : State) (hours : Z) (name : string) :
  name ∉ recognized_names → template_mapping host st hours !! name = None.
Proof.
  intros Hname. unfold recognized_names in Hname.
  rewrite !not_elem_of_cons in Hname. destruct Hname as (?&?&?&?&?&?&?&?&_).
  unfold template_mapping. rewrite !lookup_insert_ne by done. apply lookup_empty.
Qed.

Lemma template_mapping_recognized (st : State) (hours : Z) (name : string) :
  name ∈ recognized_names → is_Some (template_mapping host st hours !! name).
Proof.
  intros Hname. unfold recognized_names in Hname.
  rewrite !elem_of_cons, elem_of_nil in Hname. unfold template_mapping.
  destruct_or! Hname; subst name; [simplify_map_eq; eauto.. | done].
Qed.

(** The keys of the dictionary are the eight recognized names. *)
Lemma template_mapping_keys (st : State) (hours : Z) (name : string) :
  is_Some (template_mapping host st hours !! name) ↔ name ∈ recognized_names.
Proof.
  split; [|apply template_mapping_recognized].
  intros Hsome. destruct (decide (name ∈ recognized_names)) as [|Hname]; [done|].
  rewrite (template_mapping_unrecognized st hours name Hname) in Hsome.
  by destruct Hsome.
Qed.

(** Where a piece is written as [middle], the expansion has [middle]
    between the renderings of what precedes and what follows. *)
Lemma expand_template_at
    (path : string) (st : State) (text : string) (hours : Z)
    (before after : list Piece) (p : Piece) (middle : string) :
  files st !! path = Some text →
  health_validity_hours host (environ st) = Some hours →
  pieces text = before ++ p :: after →
  substitute_piece host (template_mapping host st hours) p = Ok middle →
  (expand_template host path st).1
  = around (render host (template_mapping host st hours) before) middle
           (render host (template_mapping host st hours) after).
Proof.
  intros Hfile Hhours Hpieces Hp.
  rewrite (expand_template_ok path st text hours Hfile Hhours). cbn [fst].
  unfold safe_substitute. rewrite Hpieces. by apply render_split.
Qed.

End Expansion.

(** C5: a placeholder whose name is not one of the eight recognized names
    is left as it stands, at its place in the text, and no exception comes
    from it: the dictionary given to [safe_substitute] has exactly the
    eight names as keys, and the expansion is the placeholder's own text
    between the renderings of what precedes and what follows it. *)
Theorem expand_template_keeps_unrecognized
    (host : Host) (path : string) (st : State) (text : string) (hours : Z)
    (before after : list Piece) (p : Piece) (name : string) :
  files st !! path = Some text →
  health_validity_hours host (environ st) = Some hours →
  pieces text = before ++ p :: after →
  placeholder_name p = Some name →
  name ∉ recognized_names →
  (∀ n : string, is_Some (template_mapping host st hours !! n) ↔ n ∈ recognized_names)
  ∧ text = Str.join (piece_text <$> before) +:+ piece_text p
           +:+ Str.join (piece_text <$> after)
  ∧ (expand_template host path st).1
    = around (render host (template_mapping host st hours) before)
             (piece_text p)
             (render host (template_mapping host st hours) after)
  ∧ ∀ b a : string,
      render host (template_mapping host st hours) before = Ok b →
      render host (template_mapping host st hours) after = Ok a →
      (expand_template host path st).1 = Ok (b +:+ piece_text p +:+ a).
Proof.
  intros Hfile Hhours Hpieces Hp Hname.
  assert ((expand_template host path st).1
          = around (render host (template_mapping host st hours) before)
                   (piece_text p)
                   (render host (template_mapping host st hours) after)) as Hresult.
  { apply (expand_template_at host path st text hours before after p _
             Hfile Hhours Hpieces).
    apply (substitute_unknown host _ p name Hp).
    by apply template_mapping_unrecognized. }
  split; [apply template_mapping_keys|]. split; [|split; [exact Hresult|]].
  - by rewrite <- text_split, <- Hpieces, pieces_text.
  - intros b a Hb Ha. by rewrite Hresult, Hb, Ha.
Qed.

(** The placeholder [${FOO}] of the sample template stays. *)
Lemma expand_template_keeps_unrecognized_witness :
  (expand_template Sample.host "check.yaml" Sample.state).1
  = Ok ("dry: None foo: " +:+ "${FOO}" +:+ " expiry: 1729913600").
Proof.
  destruct (expand_template_keeps_unrecognized Sample.host "check.yaml" Sample.state
              Sample.template 24 (take 12 (pieces Sample.template))
              (drop 13 (pieces Sample.template)) (Found (Braced "FOO")) "FOO")
    as (_ & _ & _ & Hout).
  - vm_compute. reflexivity.
  - vm_compute. reflexivity.
  - vm_compute. reflexivity.
  - reflexivity.
  - apply (bool_decide_unpack _). vm_compute. exact I.
  - apply (Hout "dry: None foo: " " expiry: 1729913600"); vm_compute; reflexivity.
Defined.

(** C6, as the code has it: a [DRY_RUN] placeholder is replaced by the
    value of the environment variable when it is set, and by the text
    [None] when it is absent. *)
Theorem expand_template_dry_run
    (host : Host) (path : string) (st : State) (text : string) (hours : Z)
    (before after : list Piece) (p : Piece) :
  files st !! path = Some text →
  health_validity_hours host (environ st) = Some hours →
  pieces text = before ++ p :: after →
  placeholder_name p = Some "DRY_RUN" →
  (expand_template host path st).1
  = around (render host (template_mapping host st hours) before)
           match environ st !! "DRY_RUN" with
           | Some value => value
           | None => "None"
           end
           (render host (template_mapping host st hours) after).
Proof.
  intros Hfile Hhours Hpieces Hp.
  apply (expand_template_at host path st text hours before after p _
           Hfile Hhours Hpieces).
  rewrite (substitute_known host _ p "DRY_RUN"
             (from_option PyStr PyNone (environ st !! "DRY_RUN")) Hp).
  - by destruct (environ st !! "DRY_RUN").
  - unfold template_mapping. rewrite !lookup_insert_ne by done. apply lookup_insert_eq.
Qed.

(** With [DRY_RUN=true] the file [${DRY_RUN}] expands to [true]. *)
Lemma expand_template_dry_run_witness :
  (expand_template Sample.host "dry.yaml" Sample.state_set).1 = Ok "true".
Proof.
  rewrite (expand_template_dry_run Sample.host "dry.yaml" Sample.state_set
             "${DRY_RUN}" 2 [] [] (Found (Braced "DRY_RUN"))).
  - vm_compute. reflexivity.
  - vm_compute. reflexivity.
  - vm_compute. reflexivity.
  - vm_compute. reflexivity.
  - reflexivity.
Defined.

(** C6 as stated fails: with [DRY_RUN] absent the file [${DRY_RUN}]
    expands to the four characters [None], not to the empty text. *)
Lemma dry_run_absent_expands_to_None :
  environ Sample.state !! "DRY_RUN" = None
  ∧ files Sample.state !! "dry.yaml" = Some "${DRY_RUN}"
  ∧ (expand_template Sample.host "dry.yaml" Sample.state).1 = Ok "None"
  ∧ (expand_template Sample.host "dry.yaml" Sample.state).1 ≠ Ok "".
Proof.
  assert ((expand_template Sample.host "dry.yaml" Sample.state).1 = Ok "None") as E
    by (vm_compute; reflexivity).
  split; [vm_compute; reflexivity|].
  split; [vm_compute; reflexivity|].
  split; [exact E|]. rewrite E. discriminate.
Qed.

(** C7: an [EXPIRY_TIME_EPOCH_SEC] placeholder is replaced by the decimal
    text of [now - hours * 3600].  [now] is the current time in whole
    seconds, read at the second reading of the clock in the call.  [hours]
    is 24 when [HEALTH_VALIDITY_HOURS] is absent, and otherwise the
    integer that the variable holds: the integer whose decimal text it
    is, or more generally what [int()] makes of its text.  The integers
    have to be such that the interpreter converts them: of at most 640
    digits, or of no more digits than its limit, 4300 unless set
    otherwise. *)
Theorem expand_template_expiry
    (host : Host) (path : string) (st : State) (text : string) (hours now : Z)
    (before after : list Piece) (p : Piece) :
  files st !! path = Some text →
  (environ st !! "HEALTH_VALIDITY_HOURS" = None ∧ hours = 24)
  ∨ (environ st !! "HEALTH_VALIDITY_HOURS" = Some (pretty hours)
     ∧ within_limit host hours)
  ∨ (∃ literal : string,
       environ st !! "HEALTH_VALIDITY_HOURS" = Some literal
       ∧ int_of_text host literal = Some hours) →
  whole_part (clock host (S (ticks st))) now →
  within_limit host (now - hours * 3600) →
  pieces text = before ++ p :: after →
  placeholder_name p = Some "EXPIRY_TIME_EPOCH_SEC" →
  (expand_template host path st).1
  = around (render host (template_mapping host st hours) before)
           (pretty (now - hours * 3600))
           (render host (template_mapping host st hours) after).
Proof.
  intros Hfile Hsource Hnow Hsize Hpieces Hp.
  assert (health_validity_hours host (environ st) = Some hours) as Hhours.
  { unfold health_validity_hours.
    destruct Hsource as [[-> ->]|[[-> Hsmall]|(literal & -> & Hint)]]; [done| |done].
    by apply DecimalFacts.int_of_text_pretty. }
  apply (expand_template_at host path st text hours before after p _
           Hfile Hhours Hpieces).
  rewrite (substitute_known host _ p "EXPIRY_TIME_EPOCH_SEC"
             (PyInt (int_float (clock host (S (ticks st))) - hours * 60 * 60)) Hp).
  - cbn [str_value]. rewrite (int_float_whole_part _ now Hnow).
    replace (now - hours * 60 * 60) with (now - hours * 3600) by lia.
    by apply DecimalFacts.str_int_within.
  - unfold template_mapping. apply lookup_insert_eq.
Qed.

(** At time 1730000000 with the default of 24 hours the sample template
    ends in 1729913600. *)
Lemma expand_template_expiry_witness :
  (expand_template Sample.host "check.yaml" Sample.state).1
  = Ok "dry: None foo: ${FOO} expiry: 1729913600".
Proof.
  rewrite (expand_template_expiry Sample.host "check.yaml" Sample.state
             Sample.template 24 1730000000 (take 22 (pieces Sample.template)) []
             (Found (Braced "EXPIRY_TIME_EPOCH_SEC"))).
  - vm_compute. reflexivity.
  - vm_compute. reflexivity.
  - left. split; [vm_compute|]; reflexivity.
  - left. vm_compute. repeat split; discriminate.
  - left. vm_compute. reflexivity.
  - vm_compute. reflexivity.
  - reflexivity.
Defined.

(** ** One cleanup action per forward action *)

Lemma create_k8s_objects_runs (host : Host) (yaml_path kubectl_path : string) (st : State) :
  match (expand_template host yaml_path st).1 with
  | Ok _ =>
      ∃ st',
        create_k8s_objects host yaml_path kubectl_path st
        = (Ok [run_command host
                 (kubectl_path +:+ " delete -f " +:+ temp_name host (temps st)) false],
           st')
        ∧ calls st'
          = calls st ++ [(kubectl_path +:+ " apply -f " +:+ temp_name host (temps st), false)]
  | Raise e =>
      ∃ st',
        create_k8s_objects host yaml_path kubectl_path st = (Raise e, st')
        ∧ calls st' = calls st
  end.
Proof.
  pose proof (expand_template_quiet host yaml_path st) as (Hcalls & Htemps & _).
  unfold create_k8s_objects, bind.
  destruct (expand_template host yaml_path st) as [[content|e] st1];
    cbn [fst snd] in *; [|by exists st1].
  unfold write_temp_file. rewrite Htemps.
  match goal with
  | |- context [apply_yaml_file host ?f ?k ?s] =>
      destruct (apply_yaml_file_runs host f k s) as (st3 & -> & Hst3)
  end.
  exists st3. split; [done|]. rewrite Hst3. cbn [calls]. by rewrite Hcalls.
Qed.

(** C9: every provisioning call that performs its forward action returns
    exactly one cleanup action, the one that undoes it.
    [create_helm_release] returns a one-element list holding what
    [install_helm_release] returns; [create_k8s_objects] returns a
    one-element list holding the deletion of the file it applied, and when
    the template cannot be expanded it raises before any command is run. *)
Theorem one_cleanup_per_forward_action (host : Host) :
  (∀ (helm_path release_name : string) (chart : option string)
     (values : option StrDict) (chart_version helm_install_flags : option string)
     (st : State),
     ∃ (cleanup : Cleanup) (st' : State),
       install_helm_release host helm_path release_name chart values
                            chart_version helm_install_flags st
       = (Ok cleanup, st')
       ∧ create_helm_release host helm_path release_name chart values
                             chart_version helm_install_flags st
         = (Ok [cleanup], st')
       ∧ cleanup = run_command host (helm_path +:+ " uninstall " +:+ release_name) false)
  ∧ (∀ (yaml_path kubectl_path : string) (st : State),
       ∃ (cleanup : Cleanup) (st' : State),
         apply_yaml_file host yaml_path kubectl_path st = (Ok cleanup, st')
         ∧ cleanup = run_command host (kubectl_path +:+ " delete -f " +:+ yaml_path) false)
  ∧ (∀ (yaml_path kubectl_path : string) (st : State),
       match (expand_template host yaml_path st).1 with
       | Ok _ =>
           ∃ (cleanup : Cleanup) (st' : State),
             create_k8s_objects host yaml_path kubectl_path st = (Ok [cleanup], st')
             ∧ cleanup
               = run_command host
                   (kubectl_path +:+ " delete -f " +:+ temp_name host (temps st)) false
             ∧ calls st'
               = calls st
                 ++ [(kubectl_path +:+ " apply -f " +:+ temp_name host (temps st), false)]
       | Raise e =>
           ∃ st' : State,
             create_k8s_objects host yaml_path kubectl_path st = (Raise e, st')
             ∧ calls st' = calls st
       end).
Proof.
  split; [|split].
  - intros helm_path release_name chart values chart_version helm_install_flags st.
    destruct (install_helm_release_runs host helm_path release_name chart values
                chart_version helm_install_flags st) as (st' & Hrun & _).
    eexists _, st'. split; [exact Hrun|]. split; [|reflexivity].
    unfold create_helm_release, bind. by rewrite Hrun.
  - intros yaml_path kubectl_path st.
    destruct (apply_yaml_file_runs host yaml_path kubectl_path st) as (st' & Hrun & _).
    eexists _, st'. split; [exact Hrun|reflexivity].
  - intros yaml_path kubectl_path st.
    pose proof (create_k8s_objects_runs host yaml_path kubectl_path st) as H.
    destruct ((expand_template host yaml_path st).1) as [content|e]; [|exact H].
    destruct H as (st' & Hrun & Hcalls). eexists _, st'. eauto.
Qed.

(** ** The functions on the sample host *)

Example install_command_sample :
  generate_helm_command "helm" "rel" (Some "repo/chart")
    (Some [("a", "1"); ("b", "2")]) (Some "1.2") (Some "--wait") INSTALL
  = "helm install rel repo/chart --version 1.2 --set a=1 --set b=2 --wait".
Proof. reflexivity. Qed.

Example empty_values_sample :
  generate_helm_command "helm" "rel" (Some "repo/chart") (Some []) None (Some "") INSTALL
  = "helm install rel repo/chart ".
Proof. reflexivity. Qed.

Example pieces_sample :
  pieces "a$$b $X-y ${z} ${ q $1"
  = [Text "a"; Found Escaped; Text "b"; Text " "; Found (Named "X"); Text "-";
     Text "y"; Text " "; Found (Braced "z"); Text " "; Found Invalid; Text "{";
     Text " "; Text "q"; Text " "; Found Invalid; Text "1"].
Proof. reflexivity. Qed.

Example expand_template_sample :
  (expand_template Sample.host "check.yaml" Sample.state).1
  = Ok "dry: None foo: ${FOO} expiry: 1729913600".
Proof. vm_compute. reflexivity. Qed.

Example expand_template_set_sample :
  (expand_template Sample.host "check.yaml" Sample.state_set).1
  = Ok "dry: true foo: ${FOO} expiry: 1729992800".
Proof. vm_compute. reflexivity. Qed.

Example expand_template_missing_file :
  (expand_template Sample.host "absent.yaml" Sample.state).1
  = Raise (FileNotFoundError "absent.yaml").
Proof. vm_compute. reflexivity. Qed.

(** On a host where every command fails the release is still "installed",
    and running the returned cleanup issues the uninstall. *)
Example install_on_failing_host :
  match install_helm_release Sample.failing_host "helm" "rel" (Some "repo/chart")
          None None (Some "--wait") Sample.state with
  | (Ok cleanup, st') =>
      calls st' = [("helm install rel repo/chart --wait", false)]
      ∧ calls (cleanup st').2
        = [("helm install rel repo/chart --wait", false); ("helm uninstall rel", false)]
  | (Raise _, _) => False
  end.
Proof. vm_compute. split; reflexivity. Qed.

Example create_k8s_objects_sample :
  calls (create_k8s_objects Sample.host "check.yaml" "kubectl" Sample.state).2
  = [("kubectl apply -f /tmp/tmp0", false)].
Proof. vm_compute. reflexivity. Qed.

(** * Further properties *)

(** ** Occurrence of a text in a text *)

Module ContainsFacts.

Lemma prefix_app (s t : string) : String.prefix s (s +:+ t) = true.
Proof.
  induction s as [|c s IH]; [by destruct t|].
  rewrite StrFacts.app_cons. cbn. by destruct (ascii_dec c c).
Qed.

Lemma prefix_app_l (sub a b : string) :
  String.prefix sub a = true → String.prefix sub (a +:+ b) = true.
Proof.
  revert a. induction sub as [|c sub IH]; intros a; [by destruct a, b|].
  destruct a as [|c' a]; [done|]. rewrite StrFacts.app_cons. cbn.
  destruct (ascii_dec c c'); [apply IH|done].
Qed.

Lemma contains_prefix (sub s : string) :
  String.prefix sub s = true → Str.contains sub s = true.
Proof. intros H. destruct s; cbn [Str.contains]; by rewrite H. Qed.

Lemma contains_app_l (sub a b : string) :
  Str.contains sub a = true → Str.contains sub (a +:+ b) = true.
Proof.
  induction a as [|c a IH]; cbn [Str.contains].
  - rewrite orb_false_r. intros H. destruct sub; [|done].
    apply contains_prefix. by destruct b.
  - rewrite StrFacts.app_cons. cbn [Str.contains].
    intros [H|H]%orb_true_iff; apply orb_true_iff.
    + left. by apply (prefix_app_l sub (String c a) b).
    + right. by apply IH.
Qed.

Lemma contains_app_r (sub a b : string) :
  Str.contains sub b = true → Str.contains sub (a +:+ b) = true.
Proof.
  intros H. induction a as [|c a IH]; [done|].
  rewrite StrFacts.app_cons. cbn [Str.contains]. rewrite IH. apply orb_true_r.
Qed.

(** A text occurs in whatever is written around it. *)
Lemma contains_mid (a sub b : string) : Str.contains sub (a +:+ sub +:+ b) = true.
Proof. apply contains_app_r, contains_prefix, prefix_app. Qed.

Lemma contains_end (a sub : string) : Str.contains sub (a +:+ sub) = true.
Proof. rewrite <- (StrFacts.app_nil_r sub) at 2. apply contains_mid. Qed.

Lemma contains_join (sub : string) (l : list string) :
  sub ∈ l → Str.contains sub (Str.join l) = true.
Proof.
  intros (l1 & l2 & ->)%list_elem_of_split.
  rewrite StrFacts.join_app, StrFacts.join_cons. apply contains_mid.
Qed.

End ContainsFacts.

(** ** What a helm command mentions *)

(** X1: an install command starts with [<helm_path> install <release_name>
    <chart>] and contains the chart name, the version when one is given,
    the [--set k=v] of every item of [values] and the flags when given; an
    uninstall command contains [uninstall <release_name>]. *)
Theorem helm_command_mentions
    (helm_path release_name chart : string)
    (values : option StrDict) (chart_version helm_install_flags : option string) :
  let install :=
    generate_helm_command helm_path release_name (Some chart) values
                          chart_version helm_install_flags INSTALL in
  let uninstall :=
    generate_helm_command helm_path release_name (Some chart) values
                          chart_version helm_install_flags UNINSTALL in
  String.prefix (helm_path +:+ " install " +:+ release_name +:+ " " +:+ chart) install = true
  ∧ Str.contains ("install " +:+ release_name) install = true
  ∧ Str.contains chart install = true
  ∧ (∀ v : string, chart_version = Some v →
       Str.contains ("--version " +:+ v) install = true)
  ∧ (∀ (d : StrDict) (k v : string), values = Some d → (k, v) ∈ d →
       Str.contains ("--set " +:+ k +:+ "=" +:+ v) install = true)
  ∧ (∀ f : string, helm_install_flags = Some f → Str.contains f install = true)
  ∧ Str.contains ("uninstall " +:+ release_name) uninstall = true.
Proof.
  intros install uninstall. subst install uninstall.
  rewrite install_command_shape. cbn [of_opt py_str].
  split; [|split; [|split; [|split; [|split; [|split]]]]].
  - apply ContainsFacts.prefix_app.
  - apply ContainsFacts.contains_app_l.
    change (Str.contains ("install " +:+ release_name)
              (helm_path +:+ " " +:+ ("install " +:+ release_name) +:+ " " +:+ chart) = true).
    apply ContainsFacts.contains_app_r, ContainsFacts.contains_app_r.
    apply ContainsFacts.contains_prefix, ContainsFacts.prefix_app.
  - apply ContainsFacts.contains_app_l.
    apply (ContainsFacts.contains_app_r chart helm_path).
    apply (ContainsFacts.contains_app_r chart " install ").
    apply (ContainsFacts.contains_app_r chart release_name).
    apply (ContainsFacts.contains_end " " chart).
  - intros v ->. apply ContainsFacts.contains_app_r, ContainsFacts.contains_app_l.
    apply (ContainsFacts.contains_end " " ("--version " +:+ v)).
  - intros d k v -> Hin.
    do 2 apply ContainsFacts.contains_app_r. apply ContainsFacts.contains_app_l.
    cbn [set_fragments].
    apply (list_elem_of_fmap_2 set_fragment) in Hin.
    apply list_elem_of_split in Hin as (l1 & l2 & ->).
    rewrite StrFacts.join_app, StrFacts.join_cons.
    apply ContainsFacts.contains_app_r, ContainsFacts.contains_app_l.
    apply (ContainsFacts.contains_end " " ("--set " +:+ k +:+ "=" +:+ v)).
  - intros f ->. do 3 apply ContainsFacts.contains_app_r.
    apply (ContainsFacts.contains_end " " f).
  - apply (ContainsFacts.contains_app_r _ helm_path).
    apply (ContainsFacts.contains_end " " ("uninstall " +:+ release_name)).
Qed.

Lemma helm_command_mentions_witness :
  Str.contains "--version 1.2"
    (generate_helm_command "helm" "rel" (Some "repo/chart")
       (Some [("a", "1"); ("b", "2")]) (Some "1.2") (Some "--wait") INSTALL) = true
  ∧ Str.contains "--set b=2"
      (generate_helm_command "helm" "rel" (Some "repo/chart")
         (Some [("a", "1"); ("b", "2")]) (Some "1.2") (Some "--wait") INSTALL) = true
  ∧ Str.contains "--wait"
      (generate_helm_command "helm" "rel" (Some "repo/chart")
         (Some [("a", "1"); ("b", "2")]) (Some "1.2") (Some "--wait") INSTALL) = true.
Proof.
  pose proof (helm_command_mentions "helm" "rel" "repo/chart"
                (Some [("a", "1"); ("b", "2")]) (Some "1.2") (Some "--wait"))
    as (_ & _ & _ & Hversion & Hset & Hflags & _).
  split; [|split].
  - apply (Hversion "1.2"). reflexivity.
  - apply (Hset [("a", "1"); ("b", "2")] "b" "2"); [reflexivity|].
    apply (bool_decide_unpack _). vm_compute. exact I.
  - apply (Hflags "--wait"). reflexivity.
Defined.

(** ** What a run leaves in the log *)

(** One call, step by step. *)
Lemma run_command_steps (host : Host) (command : string) (check : bool) (st : State) :
  let o := shell host (launch_state command st) command in
  run_command host command check st
  = if check && negb (exit_status o =? 0)
    then
      (Raise (CalledProcessError (exit_status o) command (out_text o) (err_text o)),
       {| printed := printed st ++ ["running: " +:+ command];
          ticks := S (ticks st); uuids := uuids st; temps := temps st;
          environ := environ st; files := files st;
          calls := calls st ++ [(command, check)] |})
    else
      (Ok (completed command o),
       {| printed :=
            (printed st ++ ["running: " +:+ command])
            ++ ["took: "
                +:+ float_str host
                      (float_sub host (clock host (S (ticks st))) (clock host (ticks st)))
                +:+ " seconds" +:+ newline
                +:+ "out: " +:+ out_text o +:+ ", err: " +:+ err_text o];
          ticks := S (S (ticks st)); uuids := uuids st; temps := temps st;
          environ := environ st; files := files st;
          calls := calls st ++ [(command, check)] |}).
Proof.
  intros o. unfold run_command, bind, print, time_time, subprocess_run, ret. cbn.
  fold (launch_state command st). fold o.
  by destruct (check && negb (exit_status o =? 0)).
Qed.

(** X2: [run_command] starts exactly one subprocess, with the [check] it
    was given.  When it returns it has printed the announcement and then
    the report, which holds the end time minus the start time and both
    streams of the result, and has read the clock twice.  When it raises,
    [check] was set, the exception is a [CalledProcessError] for this
    command with a non-zero status, only the announcement was printed and
    the clock was read once. *)
Theorem run_command_log (host : Host) (command : string) (check : bool) (st : State) :
  let r := run_command host command check st in
  calls r.2 = calls st ++ [(command, check)]
  ∧ match r.1 with
    | Ok diag =>
        printed r.2
        = printed st
          ++ ["running: " +:+ command;
              "took: "
              +:+ float_str host
                    (float_sub host (clock host (S (ticks st))) (clock host (ticks st)))
              +:+ " seconds" +:+ newline
              +:+ "out: " +:+ stdout diag +:+ ", err: " +:+ stderr diag]
        ∧ ticks r.2 = S (S (ticks st))
    | Raise e =>
        printed r.2 = printed st ++ ["running: " +:+ command]
        ∧ ticks r.2 = S (ticks st)
        ∧ check = true
        ∧ ∃ (code : Z) (out err : string),
            e = CalledProcessError code command out err ∧ code ≠ 0
    end.
Proof.
  intros r. subst r. rewrite run_command_steps.
  set (o := shell host (launch_state command st) command).
  destruct check; cbn [andb].
  - destruct (Z.eqb_spec (exit_status o) 0) as [Hz|Hnz]; cbn [negb fst snd calls printed ticks].
    + split; [done|]. split; [|done]. by rewrite <- app_assoc.
    + split; [done|]. repeat split; eauto.
  - cbn [fst snd calls printed ticks]. split; [done|]. split; [|done].
    by rewrite <- app_assoc.
Qed.

(** X3: for a command that exits with status zero [check] makes no
    difference: the same result object is returned and the same lines are
    printed. *)
Theorem check_irrelevant_on_success (host : Host) (command : string) (st : State) :
  exit_status (shell host (launch_state command st) command) = 0 →
  (run_command host command true st).1 = (run_command host command false st).1
  ∧ (run_command host command true st).1
    = Ok (completed command (shell host (launch_state command st) command))
  ∧ printed (run_command host command true st).2
    = printed (run_command host command false st).2.
Proof.
  intros Hz. rewrite !run_command_steps. cbn zeta. rewrite Hz. done.
Qed.

Lemma check_irrelevant_on_success_witness :
  (run_command Sample.host "true" true Sample.state).1
  = (run_command Sample.host "true" false Sample.state).1
  ∧ (run_command Sample.host "true" true Sample.state).1
    = Ok (completed "true" (shell Sample.host (launch_state "true" Sample.state) "true"))
  ∧ printed (run_command Sample.host "true" true Sample.state).2
    = printed (run_command Sample.host "true" false Sample.state).2.
Proof.
  apply (check_irrelevant_on_success Sample.host "true" Sample.state).
  vm_compute. reflexivity.
Defined.

(** ** Node labels *)

(** X4: [add_label] first announces the label, then formats
    [label_format] with the node name, the label and the value, in this
    order.  When formatting gives a command, that command is run once,
    without [check], and the call returns [None] whatever the exit status;
    when formatting raises, the exception leaves after the announcement
    and no command is run. *)
Theorem add_label_runs
    (host : Host) (percent : string → list string → Result string)
    (node_name label value label_format : string) (st : State) :
  let announced :=
    printed st
    ++ ["adding label " +:+ label +:+ "=" +:+ value +:+ " to node " +:+ node_name] in
  let r := add_label host percent node_name label value label_format st in
  match percent label_format [node_name; label; value] with
  | Ok command =>
      r.1 = Ok ()
      ∧ calls r.2 = calls st ++ [(command, false)]
      ∧ ∃ report : string,
          printed r.2 = announced ++ ["running: " +:+ command; report]
  | Raise e =>
      r.1 = Raise e
      ∧ calls r.2 = calls st
      ∧ printed r.2 = announced
  end.
Proof.
  intros announced r. subst announced r.
  unfold add_label, bind, lift, print, ret.
  destruct (percent label_format [node_name; label; value]) as [command|e];
    cbn [fst snd calls printed]; [|done].
  rewrite run_command_steps. cbn [andb fst snd calls printed].
  split; [done|]. split; [done|]. eexists. by rewrite <- app_assoc.
Qed.

Example add_label_sample :
  let r := add_label Sample.failing_host Trial.percent "node-1" "health" "bad"
             "kubectl label node %s %s=%s --overwrite" Sample.state in
  r.1 = Ok ()
  ∧ calls r.2 = [("kubectl label node node-1 health=bad --overwrite", false)]
  ∧ head (printed r.2) = Some "adding label health=bad to node node-1".
Proof. vm_compute. repeat split. Qed.

Example add_label_short_format :
  let r := add_label Sample.host Trial.percent "node-1" "health" "bad"
             "kubectl label node %s %s" Sample.state in
  r.1 = Raise TypeError
  ∧ calls r.2 = []
  ∧ printed r.2 = ["adding label health=bad to node node-1"].
Proof. vm_compute. repeat split. Qed.

(** ** Cleanup actions *)

(** An unchecked run returns, and adds its command to those run. *)
Lemma run_command_unchecked_calls (host : Host) (command : string) (st : State) :
  ∃ (diag : CompletedProcess) (st' : State),
    run_command host command false st = (Ok diag, st')
    ∧ calls st' = calls st ++ [(command, false)].
Proof.
  destruct (run_command_unchecked host command st) as (st' & Hrun & Hcalls & _).
  eauto.
Qed.

(** X5: [apply_yaml_file] runs [<kubectl_path> apply -f <yaml_path>]
    and its cleanup action, in whatever state it is called, returns
    normally after running [<kubectl_path> delete -f <yaml_path>] for the
    same two paths. *)
Theorem apply_yaml_file_cleanup_command
    (host : Host) (yaml_path kubectl_path : string) (st : State) :
  ∃ (cleanup : Cleanup) (st' : State),
    apply_yaml_file host yaml_path kubectl_path st = (Ok cleanup, st')
    ∧ calls st' = calls st ++ [(kubectl_path +:+ " apply -f " +:+ yaml_path, false)]
    ∧ ∀ st2 : State,
        ∃ (diag : CompletedProcess) (st3 : State),
          cleanup st2 = (Ok diag, st3)
          ∧ calls st3 = calls st2 ++ [(kubectl_path +:+ " delete -f " +:+ yaml_path, false)].
Proof.
  destruct (apply_yaml_file_runs host yaml_path kubectl_path st) as (st' & Hrun & Hcalls).
  eexists _, st'. split; [exact Hrun|]. split; [exact Hcalls|].
  intros st2. apply run_command_unchecked_calls.
Qed.

(** X6: a cleanup action is not used up by running it: run twice in a
    row, the cleanup of [install_helm_release] issues the uninstall command
    twice and the cleanup of [apply_yaml_file] the delete command twice,
    and neither run raises. *)
Theorem cleanup_can_run_again
    (host : Host) (helm_path release_name : string) (chart : option string)
    (values : option StrDict) (chart_version helm_install_flags : option string)
    (yaml_path kubectl_path : string) (st : State) :
  (∃ (cleanup : Cleanup) (st' : State),
     install_helm_release host helm_path release_name chart values
                          chart_version helm_install_flags st
     = (Ok cleanup, st')
     ∧ ∀ st2 : State,
         ∃ (diag : CompletedProcess) (st3 : State),
           (cleanup ;; cleanup) st2 = (Ok diag, st3)
           ∧ calls st3
             = calls st2
               ++ [(helm_path +:+ " uninstall " +:+ release_name, false);
                   (helm_path +:+ " uninstall " +:+ release_name, false)])
  ∧ (∃ (cleanup : Cleanup) (st' : State),
       apply_yaml_file host yaml_path kubectl_path st = (Ok cleanup, st')
       ∧ ∀ st2 : State,
           ∃ (diag : CompletedProcess) (st3 : State),
             (cleanup ;; cleanup) st2 = (Ok diag, st3)
             ∧ calls st3
               = calls st2
                 ++ [(kubectl_path +:+ " delete -f " +:+ yaml_path, false);
                     (kubectl_path +:+ " delete -f " +:+ yaml_path, false)]).
Proof.
  assert (∀ (command : string) (st2 : State),
            ∃ (diag : CompletedProcess) (st3 : State),
              (run_command host command false ;; run_command host command false) st2
              = (Ok diag, st3)
              ∧ calls st3 = calls st2 ++ [(command, false); (command, false)]) as Htwice.
  { intros command st2. unfold bind.
    destruct (run_command_unchecked_calls host command st2) as (d1 & s1 & -> & H1).
    destruct (run_command_unchecked_calls host command s1) as (d2 & s2 & -> & H2).
    exists d2, s2. split; [done|]. by rewrite H2, H1, <- app_assoc. }
  split.
  - destruct (install_helm_release_runs host helm_path release_name chart values
                chart_version helm_install_flags st) as (st' & Hrun & _).
    eexists _, st'. split; [exact Hrun|]. intros st2. apply Htwice.
  - destruct (apply_yaml_file_runs host yaml_path kubectl_path st) as (st' & Hrun & _).
    eexists _, st'. split; [exact Hrun|]. intros st2. apply Htwice.
Qed.

(** ** Template expansion, the whole call *)

Section ExpansionFacts.
Variable host : Host.

(** Pieces that are kept are written as they stand, and writing them
    raises nothing. *)
Lemma render_kept (mapping : gmap string PyVal) (ps : list Piece) :
  (∀ name : string, name ∉ recognized_names → mapping !! name = None) →
  forallb kept_piece ps = true →
  render host mapping ps = Ok (Str.join (piece_text <$> ps)).
Proof.
  intros Hout. induction ps as [|p ps IH]; [done|].
  cbn [forallb]. intros [Hp Hps]%andb_true_iff.
  cbn [render]. rewrite (IH Hps), fmap_cons, StrFacts.join_cons.
  assert (substitute_piece host mapping p = Ok (piece_text p)) as ->; [|done].
  destruct p as [c|[| id | id |]]; cbn in Hp |- *; try done;
    apply bool_decide_eq_true in Hp; by rewrite (Hout id Hp).
Qed.

Lemma no_delimiter_pieces (s : string) :
  no_delimiter s = true → forallb kept_piece (pieces s) = true.
Proof.
  unfold pieces. induction s as [|c s IH]; [done|].
  cbn [no_delimiter pieces_from]. intros [Hc Hs]%andb_true_iff.
  apply negb_true_iff in Hc. rewrite Hc. cbn [forallb kept_piece]. by apply IH.
Qed.

(** A placeholder whose value is a text is replaced by that text. *)
Lemma expand_template_text_value
    (path : string) (st : State) (text : string) (hours : Z)
    (before after : list Piece) (p : Piece) (name value : string) :
  files st !! path = Some text →
  health_validity_hours host (environ st) = Some hours →
  pieces text = before ++ p :: after →
  placeholder_name p = Some name →
  (∃ v : PyVal, template_mapping host st hours !! name = Some v
                ∧ str_value host v = Ok value) →
  (expand_template host path st).1
  = around (render host (template_mapping host st hours) before) value
           (render host (template_mapping host st hours) after).
Proof.
  intros Hfile Hhours Hpieces Hp (v & Hv & Hstr).
  apply (expand_template_at host path st text hours before after p _
           Hfile Hhours Hpieces).
  by rewrite (substitute_known host _ p name v Hp Hv).
Qed.

End ExpansionFacts.

(** X7: once the template file has been read, [expand_template] takes
    exactly two readings of the clock and one identifier, whether it then
    returns or raises and whether or not [SHORT_GUID] is set; it prints
    nothing, runs no command and writes no file. *)
Theorem expand_template_state
    (host : Host) (path : string) (st : State) (text : string) :
  files st !! path = Some text →
  (expand_template host path st).2 = expanded_state st
  ∧ ticks (expand_template host path st).2 = S (S (ticks st))
  ∧ uuids (expand_template host path st).2 = S (uuids st)
  ∧ printed (expand_template host path st).2 = printed st
  ∧ calls (expand_template host path st).2 = calls st
  ∧ files (expand_template host path st).2 = files st.
Proof.
  intros Hfile.
  assert ((expand_template host path st).2 = expanded_state st) as ->; [|done].
  unfold expand_template, bind, read_file, time_time, environ_get, uuid4, lift, ret.
  rewrite Hfile. cbn [fst snd ticks uuids environ].
  by destruct (py_int host _).
Qed.

(** A call that raises, with [SHORT_GUID] set: the identifier is taken
    all the same. *)
Lemma expand_template_state_witness :
  uuids (expand_template Sample.host "plain.yaml"
           (Trial.state_with {[ "SHORT_GUID" := "ab12";
                                "HEALTH_VALIDITY_HOURS" := "a day" ]})).2 = 1%nat.
Proof.
  destruct (expand_template_state Sample.host "plain.yaml"
              (Trial.state_with {[ "SHORT_GUID" := "ab12";
                                   "HEALTH_VALIDITY_HOURS" := "a day" ]})
              "kind: Pod") as (_ & _ & Huuids & _).
  - vm_compute. reflexivity.
  - exact Huuids.
Defined.

(** X8: for a template that does not exist [expand_template] and
    [create_k8s_objects] raise [FileNotFoundError] naming the path and
    leave everything as it was: no temporary file, no command. *)
Theorem missing_template_changes_nothing
    (host : Host) (yaml_path kubectl_path : string) (st : State) :
  files st !! yaml_path = None →
  expand_template host yaml_path st = (Raise (FileNotFoundError yaml_path), st)
  ∧ create_k8s_objects host yaml_path kubectl_path st
    = (Raise (FileNotFoundError yaml_path), st).
Proof.
  intros Hfile. pose proof (expand_template_no_file host yaml_path st Hfile) as E.
  split; [exact E|]. unfold create_k8s_objects, bind. by rewrite E.
Qed.

Lemma missing_template_changes_nothing_witness :
  expand_template Sample.host "absent.yaml" Sample.state
  = (Raise (FileNotFoundError "absent.yaml"), Sample.state)
  ∧ create_k8s_objects Sample.host "absent.yaml" "kubectl" Sample.state
    = (Raise (FileNotFoundError "absent.yaml"), Sample.state).
Proof.
  apply (missing_template_changes_nothing Sample.host "absent.yaml" "kubectl" Sample.state).
  vm_compute. reflexivity.
Defined.

(** X9: when [HEALTH_VALIDITY_HOURS] is set to a text that [int()] does
    not take, the expansion of every template that can be read raises
    [ValueError] for that text, also when the template has no expiry
    placeholder, and [create_k8s_objects] raises the same before it
    creates a file or runs a command. *)
Theorem bad_validity_hours_fails_every_expansion
    (host : Host) (yaml_path kubectl_path : string) (st : State) (text literal : string) :
  files st !! yaml_path = Some text →
  environ st !! "HEALTH_VALIDITY_HOURS" = Some literal →
  int_of_text host literal = None →
  (expand_template host yaml_path st).1 = Raise (ValueError literal)
  ∧ create_k8s_objects host yaml_path kubectl_path st
    = (Raise (ValueError literal), expanded_state st).
Proof.
  intros Hfile Henv Hint.
  pose proof (expand_template_bad_hours host yaml_path st text literal Hfile Henv Hint) as E.
  split; [by rewrite E|]. unfold create_k8s_objects, bind. by rewrite E.
Qed.

Lemma bad_validity_hours_fails_every_expansion_witness :
  (expand_template Sample.host "plain.yaml"
     (Trial.state_with {[ "HEALTH_VALIDITY_HOURS" := "a day" ]})).1
  = Raise (ValueError "a day")
  ∧ create_k8s_objects Sample.host "plain.yaml" "kubectl"
      (Trial.state_with {[ "HEALTH_VALIDITY_HOURS" := "a day" ]})
    = (Raise (ValueError "a day"),
       expanded_state (Trial.state_with {[ "HEALTH_VALIDITY_HOURS" := "a day" ]})).
Proof.
  apply (bad_validity_hours_fails_every_expansion Sample.host "plain.yaml" "kubectl"
           (Trial.state_with {[ "HEALTH_VALIDITY_HOURS" := "a day" ]})
           "kind: Pod" "a day").
  - vm_compute. reflexivity.
  - vm_compute. reflexivity.
  - vm_compute. reflexivity.
Defined.

(** White space of the C locale is skipped, the separators 28 to 31 are
    not. *)
Example int_of_text_sample :
  int_of_text Sample.host (String "011"%char "24") = Some 24
  ∧ int_of_text Sample.host (String "1" (String "031"%char "")) = None
  ∧ int_of_text Sample.host (String "028"%char "24") = None
  ∧ int_of_text Sample.host " -1_000 " = Some (-1000)
  ∧ int_of_text Sample.host "1__0" = None
  ∧ int_of_text Sample.host "- 1" = None.
Proof. vm_compute. repeat split. Qed.

(** X10: when the template expands to a text, [create_k8s_objects] writes
    that text, and nothing else, to a new temporary file and applies that
    very file; the other files are as before. *)
Theorem create_k8s_objects_applies_expansion
    (host : Host) (yaml_path kubectl_path : string) (st : State)
    (text expanded : string) (hours : Z) :
  files st !! yaml_path = Some text →
  health_validity_hours host (environ st) = Some hours →
  safe_substitute host (template_mapping host st hours) text = Ok expanded →
  ∃ (cleanup : Cleanup) (st' : State),
    create_k8s_objects host yaml_path kubectl_path st = (Ok [cleanup], st')
    ∧ files st' = <[temp_name host (temps st) := expanded]> (files st)
    ∧ temps st' = S (temps st)
    ∧ calls st'
      = calls st ++ [(kubectl_path +:+ " apply -f " +:+ temp_name host (temps st), false)].
Proof.
  intros Hfile Hhours Hexpanded.
  unfold create_k8s_objects, bind.
  rewrite (expand_template_ok host yaml_path st text hours Hfile Hhours), Hexpanded.
  unfold write_temp_file, apply_yaml_file, bind, K_APPLY_FORMAT.
  cbn [temps expanded_state].
  match goal with
  | |- context [run_command host ?c false ?s] =>
      destruct (run_command_unchecked host c s) as (st3 & -> & Hcalls & Hfiles & _ & Htemps)
  end.
  eexists _, st3. split; [reflexivity|].
  rewrite Hfiles, Htemps, Hcalls. done.
Qed.

Lemma create_k8s_objects_applies_expansion_witness :
  ∃ (cleanup : Cleanup) (st' : State),
    create_k8s_objects Sample.host "image.yaml" "kubectl" (Trial.state_with ∅)
    = (Ok [cleanup], st')
    ∧ files st' = <[temp_name Sample.host 0%nat := "image: repo/app:latest"]> Trial.yaml_files
    ∧ temps st' = 1%nat
    ∧ calls st' = [] ++ [("kubectl" +:+ " apply -f " +:+ temp_name Sample.host 0%nat, false)].
Proof.
  apply (create_k8s_objects_applies_expansion Sample.host "image.yaml" "kubectl"
           (Trial.state_with ∅) "image: repo/app:${IMAGE_TAG}" "image: repo/app:latest" 24).
  - vm_compute. reflexivity.
  - vm_compute. reflexivity.
  - vm_compute. reflexivity.
Defined.

(** X11: when [HEALTH_VALIDITY_HOURS] is absent or holds an integer, a
    template without any [$] is returned unchanged. *)
Theorem expand_template_plain_text
    (host : Host) (path : string) (st : State) (text : string) (hours : Z) :
  files st !! path = Some text →
  health_validity_hours host (environ st) = Some hours →
  no_delimiter text = true →
  (expand_template host path st).1 = Ok text.
Proof.
  intros Hfile Hhours Hplain.
  rewrite (expand_template_ok host path st text hours Hfile Hhours). cbn [fst].
  unfold safe_substitute.
  rewrite (render_kept host _ _ (template_mapping_unrecognized host st hours)
             (no_delimiter_pieces text Hplain)).
  by rewrite pieces_text.
Qed.

Lemma expand_template_plain_text_witness :
  (expand_template Sample.host "plain.yaml" (Trial.state_with ∅)).1 = Ok "kind: Pod".
Proof.
  apply (expand_template_plain_text Sample.host "plain.yaml" (Trial.state_with ∅)
           "kind: Pod" 24); vm_compute; reflexivity.
Defined.

(** X12: when [HEALTH_VALIDITY_HOURS] is absent or holds an integer, a
    template in which the pattern finds no [$$] and no placeholder with a
    recognized name is returned unchanged, lone delimiters and unknown
    placeholders included. *)
Theorem expand_template_nothing_recognized
    (host : Host) (path : string) (st : State) (text : string) (hours : Z) :
  files st !! path = Some text →
  health_validity_hours host (environ st) = Some hours →
  forallb kept_piece (pieces text) = true →
  (expand_template host path st).1 = Ok text.
Proof.
  intros Hfile Hhours Hkept.
  rewrite (expand_template_ok host path st text hours Hfile Hhours). cbn [fst].
  unfold safe_substitute.
  rewrite (render_kept host _ _ (template_mapping_unrecognized host st hours) Hkept).
  by rewrite pieces_text.
Qed.

Lemma expand_template_nothing_recognized_witness :
  (expand_template Sample.host "odd.yaml" (Trial.state_with ∅)).1
  = Ok "cost: 5$ ${FOO} $bar ${ open".
Proof.
  apply (expand_template_nothing_recognized Sample.host "odd.yaml" (Trial.state_with ∅)
           "cost: 5$ ${FOO} $bar ${ open" 24); vm_compute; reflexivity.
Defined.

(** X13: when [HEALTH_VALIDITY_HOURS] is absent or holds an integer, the
    expansion has a single [$] where the template has the escape [$$],
    between the renderings of what precedes and what follows it. *)
Theorem expand_template_escape
    (host : Host) (path : string) (st : State) (text : string) (hours : Z)
    (before after : list Piece) :
  files st !! path = Some text →
  health_validity_hours host (environ st) = Some hours →
  pieces text = before ++ Found Escaped :: after →
  text = Str.join (piece_text <$> before) +:+ "$$" +:+ Str.join (piece_text <$> after)
  ∧ (expand_template host path st).1
    = around (render host (template_mapping host st hours) before) "$"
             (render host (template_mapping host st hours) after).
Proof.
  intros Hfile Hhours Hpieces. split.
  - by rewrite <- (pieces_text text), Hpieces, text_split.
  - by apply (expand_template_at host path st text hours before after (Found Escaped)).
Qed.

Lemma expand_template_escape_witness :
  "price: $$5"
  = Str.join (piece_text <$> take 7 (pieces "price: $$5")) +:+ "$$"
    +:+ Str.join (piece_text <$> [Text "5"])
  ∧ (expand_template Sample.host "escape.yaml" (Trial.state_with ∅)).1
    = around (render Sample.host (template_mapping Sample.host (Trial.state_with ∅) 24)
                (take 7 (pieces "price: $$5")))
             "$"
             (render Sample.host (template_mapping Sample.host (Trial.state_with ∅) 24) [Text "5"]).
Proof.
  apply (expand_template_escape Sample.host "escape.yaml" (Trial.state_with ∅)
           "price: $$5" 24 (take 7 (pieces "price: $$5")) [Text "5"]);
    vm_compute; reflexivity.
Defined.

Example expand_template_escape_sample :
  (expand_template Sample.host "escape.yaml" (Trial.state_with ∅)).1 = Ok "price: $5".
Proof. vm_compute. reflexivity. Qed.

(** X14: when [HEALTH_VALIDITY_HOURS] is absent or holds an integer, an
    [IMAGE_TAG] placeholder is replaced by the value of the environment
    variable [IMAGE_TAG], and by [latest] when it is absent. *)
Theorem expand_template_image_tag
    (host : Host) (path : string) (st : State) (text : string) (hours : Z)
    (before after : list Piece) (p : Piece) :
  files st !! path = Some text →
  health_validity_hours host (environ st) = Some hours →
  pieces text = before ++ p :: after →
  placeholder_name p = Some "IMAGE_TAG" →
  (expand_template host path st).1
  = around (render host (template_mapping host st hours) before)
           (default "latest" (environ st !! "IMAGE_TAG"))
           (render host (template_mapping host st hours) after).
Proof.
  intros Hfile Hhours Hpieces Hp.
  apply (expand_template_text_value host path st text hours before after p "IMAGE_TAG" _
           Hfile Hhours Hpieces Hp).
  exists (from_option PyStr (PyStr "latest") (environ st !! "IMAGE_TAG")). split.
  - unfold template_mapping. rewrite !lookup_insert_ne by done. apply lookup_insert_eq.
  - by destruct (environ st !! "IMAGE_TAG").
Qed.

Lemma expand_template_image_tag_witness :
  (expand_template Sample.host "image.yaml" (Trial.state_with {[ "IMAGE_TAG" := "v2" ]})).1
  = Ok "image: repo/app:v2".
Proof.
  rewrite (expand_template_image_tag Sample.host "image.yaml"
             (Trial.state_with {[ "IMAGE_TAG" := "v2" ]})
             "image: repo/app:${IMAGE_TAG}" 24
             (take 16 (pieces "image: repo/app:${IMAGE_TAG}")) []
             (Found (Braced "IMAGE_TAG")));
    vm_compute; reflexivity.
Defined.

Example image_tag_unset_sample :
  (expand_template Sample.host "image.yaml" (Trial.state_with ∅)).1
  = Ok "image: repo/app:latest".
Proof. vm_compute. reflexivity. Qed.

(** X15: when [HEALTH_VALIDITY_HOURS] is absent or holds an integer, an
    [ITERATIONS] placeholder is replaced by the value of the environment
    variable [ITERATIONS], and by [5] when it is absent. *)
Theorem expand_template_iterations
    (host : Host) (path : string) (st : State) (text : string) (hours : Z)
    (before after : list Piece) (p : Piece) :
  files st !! path = Some text →
  health_validity_hours host (environ st) = Some hours →
  pieces text = before ++ p :: after →
  placeholder_name p = Some "ITERATIONS" →
  (expand_template host path st).1
  = around (render host (template_mapping host st hours) before)
           (default "5" (environ st !! "ITERATIONS"))
           (render host (template_mapping host st hours) after).
Proof.
  intros Hfile Hhours Hpieces Hp.
  apply (expand_template_text_value host path st text hours before after p "ITERATIONS" _
           Hfile Hhours Hpieces Hp).
  exists (from_option PyStr (PyInt 5) (environ st !! "ITERATIONS")). split.
  - unfold template_mapping. rewrite !lookup_insert_ne by done. apply lookup_insert_eq.
  - by destruct (environ st !! "ITERATIONS").
Qed.

Lemma expand_template_iterations_witness :
  (expand_template Sample.host "all.yaml" (Trial.state_with ∅)).1
  = Ok "1730000000 None None 3f2a 5 1729913600".
Proof.
  rewrite (expand_template_iterations Sample.host "all.yaml" (Trial.state_with ∅)
             Trial.all_text 24 (take 8 (pieces Trial.all_text))
             (drop 9 (pieces Trial.all_text)) (Found (Named "ITERATIONS")));
    vm_compute; reflexivity.
Defined.

(** X16: when [HEALTH_VALIDITY_HOURS] is absent or holds an integer, a
    [SHORT_GUID] placeholder is replaced by the value of the environment
    variable [SHORT_GUID], and by the first four characters of a new
    identifier when it is absent; the identifier is generated in both
    cases. *)
Theorem expand_template_short_guid
    (host : Host) (path : string) (st : State) (text : string) (hours : Z)
    (before after : list Piece) (p : Piece) :
  files st !! path = Some text →
  health_validity_hours host (environ st) = Some hours →
  pieces text = before ++ p :: after →
  placeholder_name p = Some "SHORT_GUID" →
  (expand_template host path st).1
  = around (render host (template_mapping host st hours) before)
           (default (String.substring 0 4 (uuid4_str host (uuids st)))
                    (environ st !! "SHORT_GUID"))
           (render host (template_mapping host st hours) after)
  ∧ uuids (expand_template host path st).2 = S (uuids st).
Proof.
  intros Hfile Hhours Hpieces Hp. split.
  - apply (expand_template_text_value host path st text hours before after p
             "SHORT_GUID" _ Hfile Hhours Hpieces Hp).
    exists (from_option PyStr
              (PyStr (String.substring 0 4 (uuid4_str host (uuids st))))
              (environ st !! "SHORT_GUID")). split.
    + unfold template_mapping. rewrite !lookup_insert_ne by done. apply lookup_insert_eq.
    + by destruct (environ st !! "SHORT_GUID").
  - by rewrite (expand_template_ok host path st text hours Hfile Hhours).
Qed.

Lemma expand_template_short_guid_witness :
  (expand_template Sample.host "all.yaml" (Trial.state_with {[ "SHORT_GUID" := "ab12" ]})).1
  = Ok "1730000000 None None ab12 5 1729913600"
  ∧ uuids (expand_template Sample.host "all.yaml"
             (Trial.state_with {[ "SHORT_GUID" := "ab12" ]})).2 = 1%nat.
Proof.
  destruct (expand_template_short_guid Sample.host "all.yaml"
              (Trial.state_with {[ "SHORT_GUID" := "ab12" ]})
              Trial.all_text 24 (take 6 (pieces Trial.all_text))
              (drop 7 (pieces Trial.all_text)) (Found (Named "SHORT_GUID")))
    as [Hout Huuid]; [vm_compute; reflexivity..|].
  split; [rewrite Hout; vm_compute; reflexivity | exact Huuid].
Defined.

(** X17: when [HEALTH_VALIDITY_HOURS] is absent or holds an integer, a
    [CHECK_TIME_EPOCH_SEC] placeholder is replaced by the whole seconds of
    the first reading of the clock in the call, not by the environment
    variable of that name; that variable is what an
    [ORIG_CHECK_TIME_EPOCH_SEC] placeholder is replaced by, [None] when it
    is absent. *)
Theorem expand_template_check_times
    (host : Host) (path : string) (st : State) (text : string) (hours : Z)
    (before after : list Piece) (p : Piece) :
  files st !! path = Some text →
  health_validity_hours host (environ st) = Some hours →
  pieces text = before ++ p :: after →
  (∀ check : Z,
     placeholder_name p = Some "CHECK_TIME_EPOCH_SEC" →
     whole_part (clock host (ticks st)) check →
     within_limit host check →
     (expand_template host path st).1
     = around (render host (template_mapping host st hours) before)
              (pretty check)
              (render host (template_mapping host st hours) after))
  ∧ (placeholder_name p = Some "ORIG_CHECK_TIME_EPOCH_SEC" →
     (expand_template host path st).1
     = around (render host (template_mapping host st hours) before)
              (default "None" (environ st !! "CHECK_TIME_EPOCH_SEC"))
              (render host (template_mapping host st hours) after)).
Proof.
  intros Hfile Hhours Hpieces. split.
  - intros check Hp Hcheck Hsmall.
    apply (expand_template_text_value host path st text hours before after p
             "CHECK_TIME_EPOCH_SEC" _ Hfile Hhours Hpieces Hp).
    exists (PyInt (int_float (clock host (ticks st)))). split.
    + unfold template_mapping. rewrite !lookup_insert_ne by done. apply lookup_insert_eq.
    + cbn [str_value]. rewrite (int_float_whole_part _ check Hcheck).
      by apply DecimalFacts.str_int_within.
  - intros Hp.
    apply (expand_template_text_value host path st text hours before after p
             "ORIG_CHECK_TIME_EPOCH_SEC" _ Hfile Hhours Hpieces Hp).
    exists (from_option PyStr PyNone (environ st !! "CHECK_TIME_EPOCH_SEC")). split.
    + unfold template_mapping. rewrite !lookup_insert_ne by done. apply lookup_insert_eq.
    + by destruct (environ st !! "CHECK_TIME_EPOCH_SEC").
Qed.

(** With a clock that ticks between the two readings: the check time
    from the first one, the earlier check from the environment. *)
Lemma expand_template_check_times_witness :
  around (render Trial.ticking_host (template_mapping Trial.ticking_host
                    (Trial.state_with Trial.env_check) 24) [])
         (pretty 1730000000)
         (render Trial.ticking_host (template_mapping Trial.ticking_host
                    (Trial.state_with Trial.env_check) 24)
            (drop 1 (pieces Trial.all_text)))
  = Ok "1730000000 1700000000 None 3f2a 5 1729913601"
  ∧ (expand_template Trial.ticking_host "all.yaml" (Trial.state_with Trial.env_check)).1
    = Ok "1730000000 1700000000 None 3f2a 5 1729913601".
Proof.
  destruct (expand_template_check_times Trial.ticking_host "all.yaml"
              (Trial.state_with Trial.env_check) Trial.all_text 24
              [] (drop 1 (pieces Trial.all_text)) (Found (Named "CHECK_TIME_EPOCH_SEC")))
    as [Hcheck _]; [vm_compute; reflexivity..|].
  destruct (expand_template_check_times Trial.ticking_host "all.yaml"
              (Trial.state_with Trial.env_check) Trial.all_text 24
              (take 2 (pieces Trial.all_text)) (drop 3 (pieces Trial.all_text))
              (Found (Named "ORIG_CHECK_TIME_EPOCH_SEC")))
    as [_ Horig]; [vm_compute; reflexivity..|].
  split.
  - rewrite <- (Hcheck 1730000000).
    + vm_compute. reflexivity.
    + reflexivity.
    + left. vm_compute. repeat split; discriminate.
    + left. vm_compute. reflexivity.
  - rewrite (Horig eq_refl). vm_compute. reflexivity.
Defined.

(** X18: when [HEALTH_VALIDITY_HOURS] is absent or holds an integer, an
    [R_LEVEL] placeholder is replaced by the value of the environment
    variable [R_LEVEL], and by the text [None] when it is absent. *)
Theorem expand_template_r_level
    (host : Host) (path : string) (st : State) (text : string) (hours : Z)
    (before after : list Piece) (p : Piece) :
  files st !! path = Some text →
  health_validity_hours host (environ st) = Some hours →
  pieces text = before ++ p :: after →
  placeholder_name p = Some "R_LEVEL" →
  (expand_template host path st).1
  = around (render host (template_mapping host st hours) before)
           (default "None" (environ st !! "R_LEVEL"))
           (render host (template_mapping host st hours) after).
Proof.
  intros Hfile Hhours Hpieces Hp.
  apply (expand_template_text_value host path st text hours before after p "R_LEVEL" _
           Hfile Hhours Hpieces Hp).
  exists (from_option PyStr PyNone (environ st !! "R_LEVEL")). split.
  - unfold template_mapping. rewrite !lookup_insert_ne by done. apply lookup_insert_eq.
  - by destruct (environ st !! "R_LEVEL").
Qed.

Lemma expand_template_r_level_witness :
  (expand_template Sample.host "all.yaml" (Trial.state_with {[ "R_LEVEL" := "3" ]})).1
  = Ok "1730000000 None 3 3f2a 5 1729913600".
Proof.
  rewrite (expand_template_r_level Sample.host "all.yaml"
             (Trial.state_with {[ "R_LEVEL" := "3" ]})
             Trial.all_text 24 (take 4 (pieces Trial.all_text))
             (drop 5 (pieces Trial.all_text)) (Found (Named "R_LEVEL")));
    vm_compute; reflexivity.
Defined.

(** X19: [HEALTH_VALIDITY_HOURS] holding the decimal text of an integer
    [h] is taken exactly when [h] is within what the interpreter converts:
    at most 640 digits, or no more digits than its limit.  Then the
    validity period is [h], zero and negative numbers included, and the
    call is the substitution with that period; otherwise the expansion of
    every template that can be read raises [ValueError]. *)
Theorem validity_hours_decimal
    (host : Host) (path : string) (st : State) (text : string) (h : Z) :
  files st !! path = Some text →
  environ st !! "HEALTH_VALIDITY_HOURS" = Some (pretty h) →
  (within_limit host h →
   health_validity_hours host (environ st) = Some h
   ∧ (expand_template host path st).1
     = safe_substitute host (template_mapping host st h) text)
  ∧ (¬ within_limit host h →
     (expand_template host path st).1 = Raise (ValueError (pretty h))).
Proof.
  intros Hfile Henv. split; intros Hh.
  - assert (health_validity_hours host (environ st) = Some h) as Hhours.
    { unfold health_validity_hours. rewrite Henv.
      by apply DecimalFacts.int_of_text_pretty. }
    split; [exact Hhours|].
    by rewrite (expand_template_ok host path st text h Hfile Hhours).
  - rewrite (expand_template_bad_hours host path st text (pretty h) Hfile Henv); [done|].
    by apply DecimalFacts.int_of_text_pretty_beyond.
Qed.

(** One hour in the future: [HEALTH_VALIDITY_HOURS=-1]. *)
Lemma validity_hours_decimal_witness :
  (expand_template Sample.host "all.yaml"
     (Trial.state_with {[ "HEALTH_VALIDITY_HOURS" := "-1" ]})).1
  = Ok "1730000000 None None 3f2a 5 1730003600".
Proof.
  destruct (validity_hours_decimal Sample.host "all.yaml"
              (Trial.state_with {[ "HEALTH_VALIDITY_HOURS" := "-1" ]})
              Trial.all_text (-1)) as [Hsmall _]; [vm_compute; reflexivity..|].
  destruct Hsmall as [_ ->]; [left|]; vm_compute; reflexivity.
Defined.

(** Integers of the size of a time are written whatever the limit is. *)
Example str_int_sample (host : Host) :
  str_int host (-1730000000) = Ok "-1730000000" ∧ str_int host 5 = Ok "5".
Proof. split; reflexivity. Qed.
